(** * ledger-graphql: sign-in flow, request context and transaction filters

    A shallow embedding of
    - the Apollo [context] callback of the server bootstrap (bearer-token
      extraction, revocation check, signature verification),
    - [requireAuth] and the resolver map of [src/resolver/index.ts]
      (including the [signin] and [token] mutations),
    - the where-clause construction of [TransactionDS.getTransactions] and
      [TransactionDS.countTransactions], and the single-row operations of
      [TransactionDS] ([getTransaction], [deleteTransaction],
      [addTransaction], [updateTransaction]),
    - the resolver map as it was before sign-in was introduced,
    - the choice of listener and address in [startServer].

    Promises are modelled by a state-and-exception monad over an explicit
    [World]; JS objects whose set of properties matters are [gmap]s from
    property names to values. *)

From stdpp Require Import base option list strings pretty gmap.
From Stdlib Require Import ZArith Floats.SpecFloat Lia.

Local Open Scope Z_scope.
Local Open Scope string_scope.

(* ===================================================================== *)
(** ** JavaScript strings *)
(* ===================================================================== *)

(** Header values reach Node as latin-1 strings, one character per byte,
    which is what [string] is. *)
Module JsString.

(** [s.startsWith(pat)]. *)
Fixpoint startsWith (pat s : string) : bool :=
  match pat, s with
  | EmptyString, _ => true
  | String a pat', String b s' => if Ascii.eqb a b then startsWith pat' s' else false
  | String _ _, EmptyString => false
  end.

(** [s.slice(n)] for [n >= 0]. *)
Fixpoint slice (n : nat) (s : string) : string :=
  match n, s with
  | O, _ => s
  | S n', String _ s' => slice n' s'
  | S _, EmptyString => EmptyString
  end.

(** [s.includes(pat)]. *)
Fixpoint includes (pat s : string) : bool :=
  if startsWith pat s then true
  else match s with
       | EmptyString => false
       | String _ s' => includes pat s'
       end.

(** [s.replace(pat, rep)] with a string pattern: only the first
    occurrence of [pat], wherever it starts, is replaced.  ([rep] is
    taken literally; the call sites below pass a replacement without
    dollar patterns.) *)
Fixpoint replace (pat rep s : string) : string :=
  if startsWith pat s then rep +:+ slice (String.length pat) s
  else match s with
       | EmptyString => EmptyString
       | String c s' => String c (replace pat rep s')
       end.

(** Truthiness of a string: every string but the empty one. *)
Definition truthy (s : string) : bool :=
  match s with EmptyString => false | String _ _ => true end.

End JsString.

(* ===================================================================== *)
(** ** Data model *)
(* ===================================================================== *)

(** Timestamps ([Date] values) are milliseconds since the epoch. *)
Definition Date := Z.

(** The configuration singleton read through [Config.get(name)]. *)
Module AppConfig.
Record t := {
    authorized_emails : option (list string);
    signin_key_available_time : Z;
    signin_token_available_time : Z;
    signin_jwt_secret : string;
    signin_jwt_algorithm : string
  }.
End AppConfig.

(** Claims of an issued token. *)
Module JwtPayload.
Record t := { email : string; exp : Z }.
End JwtPayload.

(** A row of the sign-in key table. *)
Module SignInKey.
Record t := { key : string; email : string; createdAt : Date }.
End SignInKey.

(** Values stored in the properties of the request context. *)
Inductive JsValue :=
| JUndefined
| JNull
| JBool (b : bool)
| JStr (s : string)
| JPayload (p : JwtPayload.t)
| JConfig (c : AppConfig.t).

(** Reading a property: a missing property reads as [undefined]. *)
Definition prop (o : gmap string JsValue) (name : string) : JsValue :=
  default JUndefined (o !! name).

(** [ToBoolean]. *)
Definition truthy (v : JsValue) : bool :=
  match v with
  | JUndefined | JNull => false
  | JBool b => b
  | JStr s => JsString.truthy s
  | JPayload _ | JConfig _ => true
  end.

(** The per-request context object. *)
Abbreviation CustomContext := (gmap string JsValue).

Inductive Error :=
| AuthenticationError (message : string)
| ApolloError (message : string)
| TypeError (message : string)
| JsonWebTokenError (message : string)
| PrismaError (message : string)
| SmtpError (message : string).

Module TransactionModel.
Record t := {
    id : Z; amount : spec_float; date : Date; note : option string;
    updatedAt : Date; reasonId : Z
  }.
End TransactionModel.

Module ReasonModel.
Record t := {
    id : Z; text : string; updatedAt : Date;
    transactions : option (list TransactionModel.t)
  }.
End ReasonModel.

(** Everything a request can observe or change. *)
Record World := {
  signInKeys : list SignInKey.t;      (* sign-in key table *)
  revokedTokens : list string;        (* revoked-token table *)
  outbox : list (string * string);    (* mails handed to the SMTP source *)
  console : list Error;               (* console.error output *)
  reasons : list ReasonModel.t;             (* ledger tables *)
  transactions : list TransactionModel.t;
  ticks : nat;                        (* clock readings taken so far *)
  draws : nat                         (* random keys drawn so far *)
}.

Definition set_signInKeys (f : list SignInKey.t -> list SignInKey.t) (w : World) : World :=
  {| signInKeys := f (signInKeys w); revokedTokens := revokedTokens w;
     outbox := outbox w; console := console w; reasons := reasons w;
     transactions := transactions w; ticks := ticks w; draws := draws w |}.

Definition set_outbox (f : list (string * string) -> list (string * string)) (w : World) : World :=
  {| signInKeys := signInKeys w; revokedTokens := revokedTokens w;
     outbox := f (outbox w); console := console w; reasons := reasons w;
     transactions := transactions w; ticks := ticks w; draws := draws w |}.

Definition set_console (f : list Error -> list Error) (w : World) : World :=
  {| signInKeys := signInKeys w; revokedTokens := revokedTokens w;
     outbox := outbox w; console := f (console w); reasons := reasons w;
     transactions := transactions w; ticks := ticks w; draws := draws w |}.

Definition set_ticks (f : nat -> nat) (w : World) : World :=
  {| signInKeys := signInKeys w; revokedTokens := revokedTokens w;
     outbox := outbox w; console := console w; reasons := reasons w;
     transactions := transactions w; ticks := f (ticks w); draws := draws w |}.

Definition set_draws (f : nat -> nat) (w : World) : World :=
  {| signInKeys := signInKeys w; revokedTokens := revokedTokens w;
     outbox := outbox w; console := console w; reasons := reasons w;
     transactions := transactions w; ticks := ticks w; draws := f (draws w) |}.

(* ===================================================================== *)
(** ** Promises: state and exceptions *)
(* ===================================================================== *)

Inductive Completion (A : Type) :=
| Return (a : A)
| Throw (e : Error).
Arguments Return {A} a.
Arguments Throw {A} e.

Definition M (A : Type) : Type := World -> Completion A * World.

#[global] Instance M_ret : MRet M := fun A a w => (Return a, w).

#[global] Instance M_bind : MBind M := fun A B k m w =>
  match m w with
  | (Return a, w') => k a w'
  | (Throw e, w') => (Throw e, w')
  end.

Definition throw {A} (e : Error) : M A := fun w => (Throw e, w).

(** [try { m } catch (e) { h e }]: effects made before the throw stay. *)
Definition try_catch {A} (m : M A) (h : Error -> M A) : M A := fun w =>
  match m w with
  | (Return a, w') => (Return a, w')
  | (Throw e, w') => h e w'
  end.

Definition get_world : M World := fun w => (Return w, w).
Definition modify (f : World -> World) : M unit := fun w => (Return tt, f w).

Definition console_error (e : Error) : M unit := modify (set_console (fun l => (l ++ [e])%list)).

(* ===================================================================== *)
(** ** The platform: clock, randomness and the npm packages *)
(* ===================================================================== *)

(** What the code takes from outside the repository.  [Date_now n] is the
    [n]-th reading of the system clock and [uuidv4 n] the [n]-th random
    key, so that two readings in one request may differ.  [jwt_verify]
    gets the clock reading it compares [exp] with and either returns the
    claims or throws.  [LocalTime] and [UTC] are the two conversions of
    the time zone of the process, from an instant to local wall-clock
    time and back, as ECMAScript names them.  [store_rejects] and
    [mail_rejects] say whether, in a given world, the database refuses
    the insert of a key for an address and the mail server refuses a mail
    to an address, and with which message. *)
Class Platform := {
  Config : AppConfig.t;
  Date_now : nat -> Date;
  uuidv4 : nat -> string;
  emailValidator_validate : string -> bool;
  jwt_sign : JwtPayload.t -> string -> string -> string;
  jwt_verify : string -> string -> Date -> Completion JwtPayload.t;
  LocalTime : Date -> Z;
  UTC : Z -> Date;
  store_rejects : World -> string -> string -> option string;
  mail_rejects : World -> string -> string -> option string
}.

(** [Math.round(ms / 1000)]: halves round up. *)
Definition Math_round_div_1000 (ms : Z) : Z := (ms + 500) / 1000.

(** The fields of a time value, as ECMAScript defines them ([/] and
    [mod] round towards minus infinity, as its floor and modulo do). *)
Definition msPerDay : Z := 86400000.
Definition msPerHour : Z := 3600000.
Definition msPerMinute : Z := 60000.
Definition msPerSecond : Z := 1000.

Definition Day (t : Z) : Z := t / msPerDay.
Definition HourFromTime (t : Z) : Z := (t / msPerHour) mod 24.
Definition MinFromTime (t : Z) : Z := (t / msPerMinute) mod 60.
Definition SecFromTime (t : Z) : Z := (t / msPerSecond) mod 60.
Definition msFromTime (t : Z) : Z := t mod msPerSecond.

Definition MakeTime (hour min sec ms : Z) : Z :=
  hour * msPerHour + min * msPerMinute + sec * msPerSecond + ms.

Definition MakeDate (day time : Z) : Z := day * msPerDay + time.

Section Calendar.
Context `{Platform}.

(** [d.getMinutes()]: the minutes field of the local time. *)
Definition Date_getMinutes (d : Date) : Z := MinFromTime (LocalTime d).

(** [d.setMinutes(min)] for a whole number [min]: the local time of [d]
    with its minutes field replaced, converted back to an instant (within
    the range of time values, where [TimeClip] changes nothing). *)
Definition Date_setMinutes (d : Date) (min : Z) : Date :=
  let t := LocalTime d in
  UTC (MakeDate (Day t) (MakeTime (HourFromTime t) min (SecFromTime t) (msFromTime t))).

(** [d.setMinutes(d.getMinutes() - minutes)], for a whole number of
    minutes. *)
Definition minus_minutes (d : Date) (minutes : Z) : Date :=
  Date_setMinutes d (Date_getMinutes d - minutes).

(** No change of the local clock separates [d] from the local time
    [minutes] minutes before it: that local time, converted back, is the
    instant [minutes] minutes before [d]. *)
Definition no_clock_change (d : Date) (minutes : Z) : Prop :=
  UTC (LocalTime d - minutes * msPerMinute) = d - minutes * msPerMinute.

End Calendar.

(** [appConfig.get('authorized_emails')?.length &&
     !appConfig.get('authorized_emails')?.includes(email)]. *)
Definition email_refused (c : AppConfig.t) (email : string) : bool :=
  match AppConfig.authorized_emails c with
  | None => false
  | Some l => negb (Nat.eqb (length l) 0) && negb (bool_decide (email ∈ l))
  end.

Section Server.
Context `{Platform}.

(** [new Date()] and [Date.now()]. *)
Definition clock : M Date := fun w => (Return (Date_now (ticks w)), set_ticks S w).

Definition fresh_uuid : M string := fun w => (Return (uuidv4 (draws w)), set_draws S w).

(* ------------------------------------------------------------------- *)
(** *** Token store and mail sender *)
(* ------------------------------------------------------------------- *)

(** Modelled from the spec: [TokenDS.create] is not part of the sources;
    section 4.1 step 4 has it persist a record
    [{key, email, createdAt = now}], and sections 5 and 7 let the
    persistence fail, in which case nothing is stored. *)
Definition tokenDs_create (key email : string) : M unit :=
  w ← get_world;
  match store_rejects w key email with
  | Some message => throw (PrismaError message)
  | None =>
      now ← clock;
      modify (set_signInKeys
                (cons {| SignInKey.key := key; SignInKey.email := email;
                         SignInKey.createdAt := now |}))
  end.

(** Modelled from the spec: [TokenDS.getRecordByKey] is not part of the
    sources; section 6 gives [getRecordByKey(key) -> record | null], a
    lookup on the unique key. *)
Definition tokenDs_getRecordByKey (key : string) : M (option SignInKey.t) :=
  w ← get_world;
  mret (List.find (fun r => String.eqb (SignInKey.key r) key) (signInKeys w)).

Definition active (email : string) (lastSeen : Date) (r : SignInKey.t) : bool :=
  String.eqb (SignInKey.email r) email && (lastSeen <=? SignInKey.createdAt r)%Z.

Definition later (r : SignInKey.t) (acc : option SignInKey.t) : option SignInKey.t :=
  match acc with
  | None => Some r
  | Some a => if (SignInKey.createdAt a <? SignInKey.createdAt r)%Z then Some r else Some a
  end.

(** Modelled from the spec: [TokenDS.getLatestActiveRecord] is not part
    of the sources; section 4.1 step 3 has it return the most recent
    sign-in key of [email] with [createdAt >= cutoff], or null. *)
Definition tokenDs_getLatestActiveRecord (email : string) (lastSeen : Date)
  : M (option SignInKey.t) :=
  w ← get_world;
  mret (foldr later None (List.filter (active email lastSeen) (signInKeys w))).

(** Modelled from the spec: [TokenDS.isRevoke] is not part of the
    sources; section 6 gives [isRevoked(token) -> bool], true when a
    revocation record holds that exact token string. *)
Definition tokenDs_isRevoke (token : string) : M bool :=
  w ← get_world;
  mret (bool_decide (token ∈ revokedTokens w)).

(** Modelled from the spec: [GmailSmtp.send] is not part of the sources;
    section 6 gives [send(email, key) -> success/failure]: it hands one
    mail over, or fails and hands nothing over. *)
Definition smtpDs_send (email key : string) : M unit :=
  w ← get_world;
  match mail_rejects w email key with
  | Some message => throw (SmtpError message)
  | None => modify (set_outbox (fun l => (l ++ [(email, key)])%list))
  end.

(** A promise run until it settles, fulfilled or rejected. *)
Definition settled {A} (m : M A) : M (Completion A) := fun w =>
  let '(c, w') := m w in (Return c, w').

(** [await Promise.all([a, b])]: both calls are made, [a] first, and
    each runs whatever becomes of the other; the whole is rejected as
    soon as one of them is.  When both are rejected the rejection of [a]
    is the one reported here (in the program it is that of the call
    that settles first). *)
Definition Promise_all {A B} (a : M A) (b : M B) : M (A * B) :=
  ra ← settled a;
  rb ← settled b;
  match ra, rb with
  | Return x, Return y => mret (x, y)
  | Throw e, _ => throw e
  | Return _, Throw e => throw e
  end.

(* ------------------------------------------------------------------- *)
(** *** The [context] callback of the Apollo server *)
(* ------------------------------------------------------------------- *)

(** [(req.headers.authorization || '').replace('Bearer ', '')]. *)
Definition bearer (authorization : option string) : string :=
  JsString.replace "Bearer " "" (default "" authorization).

Definition context (authorization : option string) : M CustomContext :=
  let token := bearer authorization in
  tokenPayload ←
    try_catch
      (revoked ← tokenDs_isRevoke token;
       if negb revoked then
         if JsString.truthy token then
           now ← clock;
           match jwt_verify token (AppConfig.signin_jwt_secret Config) now with
           | Return p => mret (JPayload p)
           | Throw e => throw e
           end
         else mret JNull
       else mret JNull)
      (fun e => console_error e;; mret JNull);
  mret ({[ "token" := JStr token;
           "tokenPayload" := tokenPayload;
           "appConfig" := JConfig Config ]} : CustomContext).

(* ------------------------------------------------------------------- *)
(** *** [requireAuth] and the sign-in mutations *)
(* ------------------------------------------------------------------- *)

Definition requireAuth (context : CustomContext) : M unit :=
  let isSignin := prop context "isSignin" in
  if negb (truthy isSignin) then throw (AuthenticationError "sign-in to continue")
  else mret tt.

(** [context.appConfig], at the first [appConfig.get(...)]: calling
    [get] on anything but the configuration object is a [TypeError]. *)
Definition appConfig_of (context : CustomContext) : M AppConfig.t :=
  match prop context "appConfig" with
  | JConfig c => mret c
  | _ => throw (TypeError "appConfig.get is not a function")
  end.

Definition Mutation_signin (email : string) (context : CustomContext) : M string :=
  if negb (emailValidator_validate email) then mret "invalid email address"
  else
    appConfig ← appConfig_of context;
    if email_refused appConfig email
    then mret "the email address isn't allowed to sign in"
    else
      now ← clock;
      let lastSeen := minus_minutes now (AppConfig.signin_key_available_time appConfig) in
      record ← tokenDs_getLatestActiveRecord email lastSeen;
      match record with
      | Some _ =>
          mret "an instruction has been sent to the email address, please follow that email to sign in."
      | None =>
          key ← fresh_uuid;
          Promise_all (tokenDs_create key email) (smtpDs_send email key);;
          mret "sent"
      end.

Definition Mutation_token (key : string) (context : CustomContext) : M string :=
  record ← tokenDs_getRecordByKey key;
  now ← clock;
  appConfig ← appConfig_of context;
  let expire := minus_minutes now (AppConfig.signin_key_available_time appConfig) in
  match record with
  | None => throw (ApolloError "Sign in key didn't exist or expired.")
  | Some r =>
      if (SignInKey.createdAt r <=? expire)%Z
      then throw (ApolloError "Sign in key didn't exist or expired.")
      else
        issued ← clock;
        let expiresIn :=
          Math_round_div_1000 issued + AppConfig.signin_token_available_time appConfig * 60 in
        mret (jwt_sign {| JwtPayload.email := SignInKey.email r; JwtPayload.exp := expiresIn |}
                       (AppConfig.signin_jwt_secret appConfig)
                       (AppConfig.signin_jwt_algorithm appConfig))
  end.

End Server.

(* ===================================================================== *)
(** ** The ledger resolvers *)
(* ===================================================================== *)

Module MutationCreateTransactionArgs.
Record t := { reasonText : string; amount : spec_float; date : Date; note : option string }.
End MutationCreateTransactionArgs.

(** The [{ amount, date, note }] objects handed to [createReason]. *)
Module NewTransaction.
Record t := { amount : spec_float; date : Date; note : option string }.
End NewTransaction.

Module CreateReasonArgs.
Record t := { text : string }.
End CreateReasonArgs.

(** The reason, transaction and daily-spend data sources, which the
    resolvers only call.  Argument objects the resolvers pass through
    unread stay abstract; [{ ...args, reasonId }] is the pair of [args]
    and the added property. *)
Class DataSources := {
  DailyBalance : Type;
  QueryGetTransactionArgs : Type;
  QueryGetTransactionsArgs : Type;
  MutationUpdateTransactionArgs : Type;
  MutationDeleteTransactionArgs : Type;
  MutationUpdateReasonArgs : Type;
  update_reasonText : MutationUpdateTransactionArgs -> option string;
  reasonDs_getReasons : M (list ReasonModel.t);
  reasonDs_getReasonById : Z -> M (option ReasonModel.t);
  reasonDs_getReasonByText : string -> M (option ReasonModel.t);
  reasonDs_createReason : CreateReasonArgs.t -> option (list NewTransaction.t) -> M ReasonModel.t;
  reasonDs_updateReason : MutationUpdateReasonArgs -> M ReasonModel.t;
  transactionDs_getTransaction : QueryGetTransactionArgs -> M (option TransactionModel.t);
  transactionDs_getTransactions : QueryGetTransactionsArgs -> M (list TransactionModel.t);
  transactionDs_createTransaction : MutationCreateTransactionArgs.t -> Z -> M TransactionModel.t;
  transactionDs_updateTransaction : MutationUpdateTransactionArgs -> option Z -> M TransactionModel.t;
  transactionDs_deleteTransaction : MutationDeleteTransactionArgs -> M TransactionModel.t;
  dailySpendDs_read : M DailyBalance
}.

(** Template-literal rendering of an integer. *)
Definition Z_to_string (z : Z) : string :=
  match z with
  | Z0 => "0"
  | Zpos p => pretty (Npos p)
  | Zneg p => "-" +:+ pretty (Npos p)
  end.

Section Resolvers.
Context `{Platform} `{DataSources}.

Definition Query_getReasons (context : CustomContext) : M (list ReasonModel.t) :=
  requireAuth context;;
  reasonDs_getReasons.

Definition Query_getTransaction (args : QueryGetTransactionArgs) (context : CustomContext)
  : M (option TransactionModel.t) :=
  requireAuth context;;
  transactionDs_getTransaction args.

Definition Query_getTransactions (args : QueryGetTransactionsArgs) (context : CustomContext)
  : M (list TransactionModel.t) :=
  requireAuth context;;
  transactionDs_getTransactions args.

Definition Query_getDailyBalance (context : CustomContext) : M DailyBalance :=
  requireAuth context;;
  dailySpendDs_read.

Definition Transaction_reason (trans : TransactionModel.t) (context : CustomContext)
  : M ReasonModel.t :=
  requireAuth context;;
  reason ← reasonDs_getReasonById (TransactionModel.reasonId trans);
  match reason with
  | None =>
      throw (ApolloError ("Reason with ID = " +:+ Z_to_string (TransactionModel.reasonId trans)
                            +:+ " doesn't exist."))
  | Some r => mret r
  end.

Definition Mutation_createTransaction (args : MutationCreateTransactionArgs.t)
    (context : CustomContext) : M TransactionModel.t :=
  requireAuth context;;
  createdReason ← reasonDs_getReasonByText (MutationCreateTransactionArgs.reasonText args);
  match createdReason with
  | Some r => transactionDs_createTransaction args (ReasonModel.id r)
  | None =>
      reason ← reasonDs_createReason
                 {| CreateReasonArgs.text := MutationCreateTransactionArgs.reasonText args |}
                 (Some [ {| NewTransaction.amount := MutationCreateTransactionArgs.amount args;
                            NewTransaction.date := MutationCreateTransactionArgs.date args;
                            NewTransaction.note := MutationCreateTransactionArgs.note args |} ]);
      match ReasonModel.transactions reason with
      | Some (t :: _) => mret t
      | _ => throw (ApolloError "Couldn't create transaction")
      end
  end.

Definition Mutation_updateTransaction (args : MutationUpdateTransactionArgs)
    (context : CustomContext) : M TransactionModel.t :=
  requireAuth context;;
  reasonId ←
    match update_reasonText args with
    | Some reasonText =>
        if JsString.truthy reasonText then
          found ← reasonDs_getReasonByText reasonText;
          reason ← match found with
                   | Some r => mret r
                   | None => reasonDs_createReason {| CreateReasonArgs.text := reasonText |} None
                   end;
          mret (Some (ReasonModel.id reason))
        else mret None
    | None => mret None
    end;
  transactionDs_updateTransaction args reasonId.

Definition Mutation_deleteTransaction (args : MutationDeleteTransactionArgs)
    (context : CustomContext) : M bool :=
  requireAuth context;;
  transactionDs_deleteTransaction args;;
  mret true.

Definition Mutation_createReason (args : CreateReasonArgs.t) (context : CustomContext)
  : M ReasonModel.t :=
  requireAuth context;;
  reasonDs_createReason args None.

Definition Mutation_updateReason (args : MutationUpdateReasonArgs) (context : CustomContext)
  : M ReasonModel.t :=
  requireAuth context;;
  reasonDs_updateReason args.

(** One field of the resolver map together with its arguments. *)
Inductive Operation :=
  | GetReasons
  | GetTransaction (args : QueryGetTransactionArgs)
  | GetTransactions (args : QueryGetTransactionsArgs)
  | GetDailyBalance
  | ReasonOfTransaction (trans : TransactionModel.t)
  | CreateTransaction (args : MutationCreateTransactionArgs.t)
  | UpdateTransaction (args : MutationUpdateTransactionArgs)
  | DeleteTransaction (args : MutationDeleteTransactionArgs)
  | CreateReason (args : CreateReasonArgs.t)
  | UpdateReason (args : MutationUpdateReasonArgs)
  | Signin (email : string)
  | Token (key : string).

Inductive Response :=
  | Reasons (l : list ReasonModel.t)
  | OneReason (r : ReasonModel.t)
  | MaybeTransaction (t : option TransactionModel.t)
  | Transactions (l : list TransactionModel.t)
  | OneTransaction (t : TransactionModel.t)
  | Balance (b : DailyBalance)
  | Flag (b : bool)
  | Text (s : string).

Definition answer {A} (f : A -> Response) (m : M A) : M Response :=
  a ← m; mret (f a).

(** The resolver map: which function serves which field. *)
Definition resolvers (op : Operation) (context : CustomContext) : M Response :=
  match op with
  | GetReasons => answer Reasons (Query_getReasons context)
  | GetTransaction args => answer MaybeTransaction (Query_getTransaction args context)
  | GetTransactions args => answer Transactions (Query_getTransactions args context)
  | GetDailyBalance => answer Balance (Query_getDailyBalance context)
  | ReasonOfTransaction trans => answer OneReason (Transaction_reason trans context)
  | CreateTransaction args => answer OneTransaction (Mutation_createTransaction args context)
  | UpdateTransaction args => answer OneTransaction (Mutation_updateTransaction args context)
  | DeleteTransaction args => answer Flag (Mutation_deleteTransaction args context)
  | CreateReason args => answer OneReason (Mutation_createReason args context)
  | UpdateReason args => answer OneReason (Mutation_updateReason args context)
  | Signin email => answer Text (Mutation_signin email context)
  | Token key => answer Text (Mutation_token key context)
  end.

(** The operations whose body calls the reason, transaction or
    daily-spend data source. *)
Definition uses_ledger (op : Operation) : bool :=
  match op with
  | Signin _ | Token _ => false
  | _ => true
  end.

End Resolvers.

(* ===================================================================== *)
(** ** [TransactionDS]: from filter arguments to a Prisma query *)
(* ===================================================================== *)

Module TransactionDS.

Module DateTimeFilter.
Record t := { gte : option Date; lte : option Date }.
Definition empty : t := {| gte := None; lte := None |}.
End DateTimeFilter.

Module DecimalFilter.
Record t := { gte : option spec_float; lte : option spec_float }.
Definition empty : t := {| gte := None; lte := None |}.
End DecimalFilter.

Module TransactionWhereInput.
Record t := {
    date : option DateTimeFilter.t;
    amount : option DecimalFilter.t;
    reasonId : option Z
  }.
Definition empty : t := {| date := None; amount := None; reasonId := None |}.
End TransactionWhereInput.
Import TransactionWhereInput.

Inductive SortOrder := asc | desc.

Module FindManyArgs.
Record t := {
    skip : Z;
    take : Z;
    where_ : TransactionWhereInput.t;
    orderBy : list (string * SortOrder);
    select : list string
  }.
End FindManyArgs.

(** Truthiness of a number: every number but [+0], [-0] and [NaN]. *)
Definition number_truthy (x : spec_float) : bool :=
  match x with
  | S754_zero _ | S754_nan => false
  | S754_infinity _ | S754_finite _ _ _ => true
  end.

(** Truthiness of a [Maybe<Date>]: a [Date] object is always truthy. *)
Definition maybe_date_truthy (d : option Date) : bool :=
  match d with Some _ => true | None => false end.

Definition maybe_number_truthy (x : option spec_float) : bool :=
  match x with Some v => number_truthy v | None => false end.

(** Truthiness of a [Maybe<Int>]. *)
Definition maybe_int_truthy (n : option Z) : bool :=
  match n with Some v => negb (v =? 0)%Z | None => false end.

(** [where.date = where.date || {}; where.date.gte = d]. *)
Definition set_date_gte (d : option Date) (w : TransactionWhereInput.t) : TransactionWhereInput.t :=
  let f := default DateTimeFilter.empty (date w) in
  {| date := Some {| DateTimeFilter.gte := d; DateTimeFilter.lte := DateTimeFilter.lte f |};
     amount := amount w; reasonId := reasonId w |}.

Definition set_date_lte (d : option Date) (w : TransactionWhereInput.t) : TransactionWhereInput.t :=
  let f := default DateTimeFilter.empty (date w) in
  {| date := Some {| DateTimeFilter.gte := DateTimeFilter.gte f; DateTimeFilter.lte := d |};
     amount := amount w; reasonId := reasonId w |}.

Definition set_amount_gte (x : option spec_float) (w : TransactionWhereInput.t) : TransactionWhereInput.t :=
  let f := default DecimalFilter.empty (amount w) in
  {| date := date w;
     amount := Some {| DecimalFilter.gte := x; DecimalFilter.lte := DecimalFilter.lte f |};
     reasonId := reasonId w |}.

Definition set_amount_lte (x : option spec_float) (w : TransactionWhereInput.t) : TransactionWhereInput.t :=
  let f := default DecimalFilter.empty (amount w) in
  {| date := date w;
     amount := Some {| DecimalFilter.gte := DecimalFilter.gte f; DecimalFilter.lte := x |};
     reasonId := reasonId w |}.

Definition set_reasonId (n : option Z) (w : TransactionWhereInput.t) : TransactionWhereInput.t :=
  {| date := date w; amount := amount w; reasonId := n |}.

(** The five [if (...) { where... }] statements ([where] is reserved
    here, hence [where_]), shared word for word by
    [getTransactions] and [countTransactions]. *)
Definition build_where (fromDate toDate : option Date) (fromAmount toAmount : option spec_float)
    (reason : option Z) : TransactionWhereInput.t :=
  let where_ := TransactionWhereInput.empty in
  let where_ := if maybe_date_truthy fromDate then set_date_gte fromDate where_ else where_ in
  let where_ := if maybe_date_truthy toDate then set_date_lte toDate where_ else where_ in
  let where_ := if maybe_number_truthy fromAmount then set_amount_gte fromAmount where_ else where_ in
  let where_ := if maybe_number_truthy toAmount then set_amount_lte toAmount where_ else where_ in
  let where_ := if maybe_int_truthy reason then set_reasonId reason where_ else where_ in
  where_.

(** The Prisma client, which the data source only calls. *)
Class PrismaClient := {
  Row : Type;
  transaction_findMany : FindManyArgs.t -> M (list Row);
  transaction_count : TransactionWhereInput.t -> M Z
  }.

Section Queries.
Context `{PrismaClient}.

Definition getTransactions (fromDate toDate : option Date)
      (fromAmount toAmount : option spec_float) (reason : option Z) (offset limit : Z)
    : M (list Row) :=
    let where_ := build_where fromDate toDate fromAmount toAmount reason in
    let query :=
      {| FindManyArgs.skip := offset;
         FindManyArgs.take := limit;
         FindManyArgs.where_ := where_;
         FindManyArgs.orderBy := [("date", desc)];
         FindManyArgs.select :=
           ["id"; "amount"; "date"; "description"; "updatedAt"; "reasonId"] |} in
    transaction_findMany query.

Definition countTransactions (fromDate toDate : option Date)
      (fromAmount toAmount : option spec_float) (reason : option Z) : M Z :=
    let where_ := build_where fromDate toDate fromAmount toAmount reason in
    transaction_count where_.

End Queries.

End TransactionDS.

(* ===================================================================== *)
(** ** The specification's wording of token extraction *)
(* ===================================================================== *)

(** Section 4.2 step 1 as it is worded: a value that starts with
    ["Bearer "] loses that prefix, any other value is the token as it
    is, and an absent header gives the empty string. *)
Definition bearer_as_specified (authorization : option string) : string :=
  let value := default "" authorization in
  if JsString.startsWith "Bearer " value then JsString.slice 7 value else value.

(* ===================================================================== *)
(** ** A small deployment to run the model on *)
(* ===================================================================== *)

Module Demo.

Definition config : AppConfig.t :=
  {| AppConfig.authorized_emails := Some ["owner@example.com"];
     AppConfig.signin_key_available_time := 10;
     AppConfig.signin_token_available_time := 60;
     AppConfig.signin_jwt_secret := "s3cret";
     AppConfig.signin_jwt_algorithm := "HS256" |}.

(** The same deployment without an allow-list. *)
Definition open_config : AppConfig.t :=
  {| AppConfig.authorized_emails := None;
     AppConfig.signin_key_available_time := 10;
     AppConfig.signin_token_available_time := 60;
     AppConfig.signin_jwt_secret := "s3cret";
     AppConfig.signin_jwt_algorithm := "HS256" |}.

Definition owner_claims : JwtPayload.t :=
  {| JwtPayload.email := "owner@example.com"; JwtPayload.exp := 1700003600 |}.

(** The clock starts at 1 700 000 000 000 ms and advances 1.5 s per
    reading; the only token the verifier accepts is ["owner.jwt"]; the
    process runs in UTC; the database and the mail server accept
    everything. *)
Definition platform : Platform :=
  {| Config := config;
     Date_now := fun n => 1700000000000 + 1500 * Z.of_nat n;
     uuidv4 := fun n => "key-" +:+ pretty n;
     emailValidator_validate := JsString.includes "@";
     jwt_sign := fun p secret alg =>
       alg +:+ "." +:+ JwtPayload.email p +:+ "." +:+ Z_to_string (JwtPayload.exp p)
           +:+ "." +:+ secret;
     jwt_verify := fun token secret now =>
       if String.eqb token "owner.jwt" && String.eqb secret "s3cret"
          && (now <? 1700003600000)%Z
       then Return owner_claims
       else Throw (JsonWebTokenError "invalid token");
     LocalTime := fun t => t;
     UTC := fun t => t;
     store_rejects := fun _ _ _ => None;
     mail_rejects := fun _ _ _ => None |}.

Definition groceries : ReasonModel.t :=
  {| ReasonModel.id := 1; ReasonModel.text := "groceries";
     ReasonModel.updatedAt := 1699999000000; ReasonModel.transactions := None |}.

Definition receipt : TransactionModel.t :=
  {| TransactionModel.id := 1; TransactionModel.amount := S754_finite false 5 2;
     TransactionModel.date := 1699999000000; TransactionModel.note := None;
     TransactionModel.updatedAt := 1699999000000; TransactionModel.reasonId := 1 |}.

Definition dataSources : DataSources :=
  {| DailyBalance := list (Date * spec_float);
     QueryGetTransactionArgs := Z;
     QueryGetTransactionsArgs := unit;
     MutationUpdateTransactionArgs := Z * option string;
     MutationDeleteTransactionArgs := Z;
     MutationUpdateReasonArgs := Z * string;
     update_reasonText := snd;
     reasonDs_getReasons := w ← get_world; mret (reasons w);
     reasonDs_getReasonById := fun id =>
       w ← get_world;
       mret (List.find (fun r => (ReasonModel.id r =? id)%Z) (reasons w));
     reasonDs_getReasonByText := fun text =>
       w ← get_world;
       mret (List.find (fun r => String.eqb (ReasonModel.text r) text) (reasons w));
     reasonDs_createReason := fun _ _ => mret groceries;
     reasonDs_updateReason := fun _ => mret groceries;
     transactionDs_getTransaction := fun id =>
       w ← get_world;
       mret (List.find (fun t => (TransactionModel.id t =? id)%Z) (transactions w));
     transactionDs_getTransactions := fun _ => w ← get_world; mret (transactions w);
     transactionDs_createTransaction := fun _ _ => mret receipt;
     transactionDs_updateTransaction := fun _ _ => mret receipt;
     transactionDs_deleteTransaction := fun _ => mret receipt;
     dailySpendDs_read := mret [] |}.

Definition prisma : TransactionDS.PrismaClient :=
  {| TransactionDS.Row := TransactionModel.t;
     TransactionDS.transaction_findMany := fun _ => w ← get_world; mret (transactions w);
     TransactionDS.transaction_count := fun _ =>
       w ← get_world; mret (Z.of_nat (length (transactions w))) |}.

Definition ownerKey (createdAt : Date) : SignInKey.t :=
  {| SignInKey.key := "k-owner"; SignInKey.email := "owner@example.com";
     SignInKey.createdAt := createdAt |}.

Definition guestKey (createdAt : Date) : SignInKey.t :=
  {| SignInKey.key := "k-guest"; SignInKey.email := "guest@example.com";
     SignInKey.createdAt := createdAt |}.

Definition world (keys : list SignInKey.t) (revoked : list string) : World :=
  {| signInKeys := keys; revokedTokens := revoked; outbox := []; console := [];
     reasons := [groceries]; transactions := [receipt]; ticks := 0; draws := 0 |}.

(** A context as a later middleware or test would complete it. *)
Definition signedIn : CustomContext :=
  {[ "token" := JStr "owner.jwt"; "tokenPayload" := JPayload owner_claims;
     "isSignin" := JBool true; "appConfig" := JConfig config ]}.

Definition signedOut : CustomContext :=
  {[ "token" := JStr ""; "tokenPayload" := JNull;
     "isSignin" := JBool false; "appConfig" := JConfig config ]}.

Definition openContext : CustomContext :=
  {[ "token" := JStr ""; "tokenPayload" := JNull; "appConfig" := JConfig open_config ]}.

End Demo.

(* ===================================================================== *)
(** ** The resolver map before sign-in was introduced *)
(* ===================================================================== *)

(** The second resolver map of the repository: the same fields for
    reasons and transactions, none of which looks at the context. *)
Module Legacy.
Section Resolvers.
Context `{DataSources}.

Definition Query_getReasons (context : CustomContext) : M (list ReasonModel.t) :=
  reasonDs_getReasons.

Definition Query_getTransaction (args : QueryGetTransactionArgs) (context : CustomContext)
  : M (option TransactionModel.t) :=
  transactionDs_getTransaction args.

Definition Query_getTransactions (args : QueryGetTransactionsArgs) (context : CustomContext)
  : M (list TransactionModel.t) :=
  transactionDs_getTransactions args.

Definition Transaction_reason (trans : TransactionModel.t) (context : CustomContext)
  : M ReasonModel.t :=
  reason ← reasonDs_getReasonById (TransactionModel.reasonId trans);
  match reason with
  | None =>
      throw (ApolloError ("Reason with ID = " +:+ Z_to_string (TransactionModel.reasonId trans)
                            +:+ " doesn't exist."))
  | Some r => mret r
  end.

Definition Mutation_createTransaction (args : MutationCreateTransactionArgs.t)
    (context : CustomContext) : M TransactionModel.t :=
  found ← reasonDs_getReasonByText (MutationCreateTransactionArgs.reasonText args);
  reason ← match found with
           | Some r => mret r
           | None =>
               reasonDs_createReason
                 {| CreateReasonArgs.text := MutationCreateTransactionArgs.reasonText args |} None
           end;
  transactionDs_createTransaction args (ReasonModel.id reason).

Definition Mutation_updateTransaction (args : MutationUpdateTransactionArgs)
    (context : CustomContext) : M TransactionModel.t :=
  reasonId ←
    match update_reasonText args with
    | Some reasonText =>
        if JsString.truthy reasonText then
          found ← reasonDs_getReasonByText reasonText;
          reason ← match found with
                   | Some r => mret r
                   | None => reasonDs_createReason {| CreateReasonArgs.text := reasonText |} None
                   end;
          mret (Some (ReasonModel.id reason))
        else mret None
    | None => mret None
    end;
  transactionDs_updateTransaction args reasonId.

Definition Mutation_deleteTransaction (args : MutationDeleteTransactionArgs)
    (context : CustomContext) : M bool :=
  transactionDs_deleteTransaction args;;
  mret true.

Definition Mutation_createReason (args : CreateReasonArgs.t) (context : CustomContext)
  : M ReasonModel.t :=
  reasonDs_createReason args None.

Definition Mutation_updateReason (args : MutationUpdateReasonArgs) (context : CustomContext)
  : M ReasonModel.t :=
  reasonDs_updateReason args.

End Resolvers.
End Legacy.

(* ===================================================================== *)
(** ** [TransactionDS]: reading, creating, updating and deleting a row *)
(* ===================================================================== *)

(** A [Maybe<T>] argument whose [null] and [undefined] the code tells
    apart. *)
Inductive Maybe (A : Type) :=
| Undefined
| Null
| Just (a : A).
Arguments Undefined {A}.
Arguments Null {A}.
Arguments Just {A} a.

Module TransactionWrites.

(** The [data] object of an update: a property that was never assigned
    is [None]; [description] may be assigned [null]. *)
Module TransactionUpdateInput.
Record t := {
  date : option Date;
  month : option Date;
  amount : option spec_float;
  reason_connect_id : option Z;
  description : option (option string);
  updatedAt : option Date
}.
Definition empty : t :=
  {| date := None; month := None; amount := None; reason_connect_id := None;
     description := None; updatedAt := None |}.
End TransactionUpdateInput.

Module TransactionCreateInput.
Record t := {
  date : Date;
  month : Date;
  amount : spec_float;
  reasonId : Z;
  description : Maybe string;
  updatedAt : Date
}.
End TransactionCreateInput.

Module UpdateArgs.
Record t := {
  data : TransactionUpdateInput.t;
  where_id : Z;
  select : list string
}.
End UpdateArgs.

Module CreateArgs.
Record t := { data : TransactionCreateInput.t; select : list string }.
End CreateArgs.

Module FindUniqueArgs.
Record t := { where_id : Z; select : list string }.
End FindUniqueArgs.

(** The patch argument of [updateTransaction]. *)
Module Patch.
Record t := {
  date : Maybe Date;
  amount : Maybe spec_float;
  reasonId : Maybe Z;
  description : Maybe string
}.
End Patch.

(** The calendar of the process and the Prisma operations on one row,
    which the data source only calls.  [local_midnight d] is
    [new Date(d.getFullYear(), d.getMonth(), d.getDate(), 0, 0, 0)]. *)
Class RowClient := {
  Row : Type;
  local_midnight : Date -> Date;
  transaction_findUnique : FindUniqueArgs.t -> M (option Row);
  transaction_delete : Z -> M Row;
  transaction_create : CreateArgs.t -> M Row;
  transaction_update : UpdateArgs.t -> M Row
}.

(** The seven columns every single-row operation selects. *)
Definition row_columns : list string :=
  ["id"; "amount"; "date"; "description"; "updatedAt"; "reasonId"; "month"].

(** [if (date)]: a [Date] object is truthy, [null] and [undefined] are
    not. *)
Definition date_given (d : Maybe Date) : option Date :=
  match d with Just v => Some v | Null | Undefined => None end.

(** [amount !== null && amount !== undefined]. *)
Definition amount_given (x : Maybe spec_float) : option spec_float :=
  match x with Just v => Some v | Null | Undefined => None end.

(** [if (reasonId)]: a number other than 0. *)
Definition reasonId_given (n : Maybe Z) : option Z :=
  match n with
  | Just v => if (v =? 0)%Z then None else Some v
  | Null | Undefined => None
  end.

(** [description !== undefined]. *)
Definition description_given (s : Maybe string) : option (option string) :=
  match s with
  | Undefined => None
  | Null => Some None
  | Just v => Some (Some v)
  end.

Section Rows.
Context `{Platform} `{RowClient}.

Definition getTransaction (id : Z) : M (option Row) :=
  transaction_findUnique {| FindUniqueArgs.where_id := id; FindUniqueArgs.select := row_columns |}.

Definition deleteTransaction (id : Z) : M Row :=
  transaction_delete id.

Definition addTransaction (date : Date) (amount : spec_float) (reasonId : Z)
    (description : Maybe string) : M Row :=
  now ← clock;
  transaction_create
    {| CreateArgs.data :=
         {| TransactionCreateInput.date := date;
            TransactionCreateInput.month := local_midnight date;
            TransactionCreateInput.amount := amount;
            TransactionCreateInput.reasonId := reasonId;
            TransactionCreateInput.description := description;
            TransactionCreateInput.updatedAt := now |};
       CreateArgs.select := row_columns |}.

(** The statements that fill [data], one [let] per statement. *)
Definition update_data (patch : Patch.t) (now : Date) : TransactionUpdateInput.t :=
  let data := TransactionUpdateInput.empty in
  let data :=
    match date_given (Patch.date patch) with
    | Some d =>
        {| TransactionUpdateInput.date := Some d;
           TransactionUpdateInput.month := Some (local_midnight d);
           TransactionUpdateInput.amount := TransactionUpdateInput.amount data;
           TransactionUpdateInput.reason_connect_id := TransactionUpdateInput.reason_connect_id data;
           TransactionUpdateInput.description := TransactionUpdateInput.description data;
           TransactionUpdateInput.updatedAt := TransactionUpdateInput.updatedAt data |}
    | None => data
    end in
  let data :=
    match amount_given (Patch.amount patch) with
    | Some x =>
        {| TransactionUpdateInput.date := TransactionUpdateInput.date data;
           TransactionUpdateInput.month := TransactionUpdateInput.month data;
           TransactionUpdateInput.amount := Some x;
           TransactionUpdateInput.reason_connect_id := TransactionUpdateInput.reason_connect_id data;
           TransactionUpdateInput.description := TransactionUpdateInput.description data;
           TransactionUpdateInput.updatedAt := TransactionUpdateInput.updatedAt data |}
    | None => data
    end in
  let data :=
    match reasonId_given (Patch.reasonId patch) with
    | Some n =>
        {| TransactionUpdateInput.date := TransactionUpdateInput.date data;
           TransactionUpdateInput.month := TransactionUpdateInput.month data;
           TransactionUpdateInput.amount := TransactionUpdateInput.amount data;
           TransactionUpdateInput.reason_connect_id := Some n;
           TransactionUpdateInput.description := TransactionUpdateInput.description data;
           TransactionUpdateInput.updatedAt := TransactionUpdateInput.updatedAt data |}
    | None => data
    end in
  let data :=
    match description_given (Patch.description patch) with
    | Some s =>
        {| TransactionUpdateInput.date := TransactionUpdateInput.date data;
           TransactionUpdateInput.month := TransactionUpdateInput.month data;
           TransactionUpdateInput.amount := TransactionUpdateInput.amount data;
           TransactionUpdateInput.reason_connect_id := TransactionUpdateInput.reason_connect_id data;
           TransactionUpdateInput.description := Some s;
           TransactionUpdateInput.updatedAt := TransactionUpdateInput.updatedAt data |}
    | None => data
    end in
  {| TransactionUpdateInput.date := TransactionUpdateInput.date data;
     TransactionUpdateInput.month := TransactionUpdateInput.month data;
     TransactionUpdateInput.amount := TransactionUpdateInput.amount data;
     TransactionUpdateInput.reason_connect_id := TransactionUpdateInput.reason_connect_id data;
     TransactionUpdateInput.description := TransactionUpdateInput.description data;
     TransactionUpdateInput.updatedAt := Some now |}.

Definition updateTransaction (id : Z) (patch : Patch.t) : M Row :=
  now ← clock;
  transaction_update
    {| UpdateArgs.data := update_data patch now;
       UpdateArgs.where_id := id;
       UpdateArgs.select := row_columns |}.

End Rows.
End TransactionWrites.

(* ===================================================================== *)
(** ** Server start: which listener, which address *)
(* ===================================================================== *)

Module Bootstrap.

Module SslCertificates.
Record t := { key : option string; cert : option string }.
End SslCertificates.

(** The two options [startServer] reads besides those of [AppConfig]. *)
Record ServerConfig := {
  ssl_certificates : option SslCertificates.t;
  app_port : Z
}.

(** [Config.get('ssl_certificates')?.key] and [?.cert]. *)
Definition keyPath (c : ServerConfig) : option string :=
  ssl_certificates c ≫= SslCertificates.key.

Definition certPath (c : ServerConfig) : option string :=
  ssl_certificates c ≫= SslCertificates.cert.

(** Truthiness of a string that may be [undefined]. *)
Definition path_truthy (p : option string) : bool :=
  match p with Some s => JsString.truthy s | None => false end.

(** [keyPath && certPath]: the first operand if it is falsy, the second
    otherwise. *)
Definition sslEnable (c : ServerConfig) : option string :=
  if path_truthy (keyPath c) then certPath c else keyPath c.

Inductive HttpServer :=
| https_createServer (key cert : string)
| http_createServer.

(** [fs.readFileSync], which returns the content of a file or throws. *)
Class FileSystem := { fs_readFileSync : string -> Completion string }.

Section Start.
Context `{FileSystem}.

Definition readFileSync (path : option string) : Completion string :=
  match path with
  | Some p => fs_readFileSync p
  | None => Throw (TypeError "The path argument must be of type string")
  end.

(** The [if (sslEnable) { ... } else { ... }] that picks the listener;
    the object literal reads the key before the certificate. *)
Definition createServer (c : ServerConfig) : Completion HttpServer :=
  if path_truthy (sslEnable c) then
    match readFileSync (keyPath c) with
    | Throw e => Throw e
    | Return key =>
        match readFileSync (certPath c) with
        | Throw e => Throw e
        | Return cert => Return (https_createServer key cert)
        end
    end
  else Return http_createServer.

End Start.

(** The address in the start-up message, after "Server ready at ". *)
Definition server_address (c : ServerConfig) (graphqlPath : string) : string :=
  "http" +:+ (if path_truthy (sslEnable c) then "s" else "")
         +:+ "://localhost:" +:+ Z_to_string (app_port c) +:+ graphqlPath.

End Bootstrap.

(* ===================================================================== *)
(** ** More of the small deployment *)
(* ===================================================================== *)

Module DemoRows.

(** A process in UTC: local midnight is the start of the UTC day. *)
Definition rows : TransactionWrites.RowClient :=
  {| TransactionWrites.Row := TransactionWrites.UpdateArgs.t + TransactionWrites.CreateArgs.t;
     TransactionWrites.local_midnight := fun d => (d - d mod 86400000)%Z;
     TransactionWrites.transaction_findUnique := fun _ => mret None;
     TransactionWrites.transaction_delete := fun _ => throw (ApolloError "no such row");
     TransactionWrites.transaction_create := fun a => mret (inr a);
     TransactionWrites.transaction_update := fun a => mret (inl a) |}.

(** Only the key file exists. *)
Definition disk : Bootstrap.FileSystem :=
  {| Bootstrap.fs_readFileSync := fun p =>
       if String.eqb p "/etc/ledger/key.pem" then Return "KEY"
       else Throw (TypeError "ENOENT") |}.

Definition keyOnly : Bootstrap.ServerConfig :=
  {| Bootstrap.ssl_certificates :=
       Some {| Bootstrap.SslCertificates.key := Some "/etc/ledger/key.pem";
               Bootstrap.SslCertificates.cert := None |};
     Bootstrap.app_port := 4000 |}.

Definition keyAndCert : Bootstrap.ServerConfig :=
  {| Bootstrap.ssl_certificates :=
       Some {| Bootstrap.SslCertificates.key := Some "/etc/ledger/key.pem";
               Bootstrap.SslCertificates.cert := Some "/etc/ledger/cert.pem" |};
     Bootstrap.app_port := 4000 |}.

Definition lunch : MutationCreateTransactionArgs.t :=
  {| MutationCreateTransactionArgs.reasonText := "groceries";
     MutationCreateTransactionArgs.amount := S754_finite false 5 2;
     MutationCreateTransactionArgs.date := 1699999000000;
     MutationCreateTransactionArgs.note := None |}.

Definition taxi : MutationCreateTransactionArgs.t :=
  {| MutationCreateTransactionArgs.reasonText := "transport";
     MutationCreateTransactionArgs.amount := S754_finite false 5 2;
     MutationCreateTransactionArgs.date := 1699999000000;
     MutationCreateTransactionArgs.note := None |}.

Definition orphan : TransactionModel.t :=
  {| TransactionModel.id := 7; TransactionModel.amount := S754_finite false 5 2;
     TransactionModel.date := 1699999000000; TransactionModel.note := None;
     TransactionModel.updatedAt := 1699999000000; TransactionModel.reasonId := 42 |}.

(** A patch that gives nothing, and one that only moves the date. *)
Definition nothing : TransactionWrites.Patch.t :=
  {| TransactionWrites.Patch.date := Undefined;
     TransactionWrites.Patch.amount := Null;
     TransactionWrites.Patch.reasonId := Just 0%Z;
     TransactionWrites.Patch.description := Undefined |}.

Definition redated : TransactionWrites.Patch.t :=
  {| TransactionWrites.Patch.date := Just 1700000000000%Z;
     TransactionWrites.Patch.amount := Undefined;
     TransactionWrites.Patch.reasonId := Undefined;
     TransactionWrites.Patch.description := Undefined |}.

End DemoRows.

(** The same deployment in a process whose time zone is that of Berlin
    around two changes of the clock: on 29 October 2023 at 01:00 UTC the
    local clock goes back from 03:00 to 02:00, on 31 March 2024 at 01:00
    UTC it goes forward from 02:00 to 03:00.  A local time that occurs
    twice, or not at all, is read with the offset in force before the
    change, as ECMAScript prescribes. *)
Module Berlin.

Definition fallBack : Date := 1698541200000.
Definition springForward : Date := 1711846800000.

Definition local_of_instant (t : Date) : Z :=
  if (t <? fallBack)%Z then t + 2 * msPerHour
  else if (t <? springForward)%Z then t + msPerHour
  else t + 2 * msPerHour.

Definition instant_of_local (l : Z) : Date :=
  if (l <? fallBack + 2 * msPerHour)%Z then l - 2 * msPerHour
  else if (l <? springForward + 2 * msPerHour)%Z then l - msPerHour
  else l - 2 * msPerHour.

(** The clock starts at [start] and advances 1.5 s per reading. *)
Definition platform (start : Date) : Platform :=
  {| Config := Demo.config;
     Date_now := fun n => start + 1500 * Z.of_nat n;
     uuidv4 := @uuidv4 Demo.platform;
     emailValidator_validate := @emailValidator_validate Demo.platform;
     jwt_sign := @jwt_sign Demo.platform;
     jwt_verify := @jwt_verify Demo.platform;
     LocalTime := local_of_instant;
     UTC := instant_of_local;
     store_rejects := fun _ _ _ => None;
     mail_rejects := fun _ _ _ => None |}.

End Berlin.

(** The small deployment with a mail server that refuses every mail. *)
Module Outage.

Definition platform : Platform :=
  {| Config := Demo.config;
     Date_now := @Date_now Demo.platform;
     uuidv4 := @uuidv4 Demo.platform;
     emailValidator_validate := @emailValidator_validate Demo.platform;
     jwt_sign := @jwt_sign Demo.platform;
     jwt_verify := @jwt_verify Demo.platform;
     LocalTime := fun t => t;
     UTC := fun t => t;
     store_rejects := fun _ _ _ => None;
     mail_rejects := fun _ _ _ => Some "connection refused" |}.

End Outage.

(* ===================================================================== *)
(** ** Facts about JavaScript strings *)
(* ===================================================================== *)

Lemma append_cons (c : Ascii.ascii) (a b : string) : String c a +:+ b = String c (a +:+ b).
Proof. reflexivity. Qed.

Lemma length_append (a b : string) :
  String.length (a +:+ b) = (String.length a + String.length b)%nat.
Proof.
  induction a as [|c a IH]; [reflexivity|].
  rewrite append_cons. simpl. rewrite IH. reflexivity.
Qed.

Lemma append_assoc (a b c : string) : (a +:+ b) +:+ c = a +:+ (b +:+ c).
Proof.
  induction a as [|d a IH]; [reflexivity|].
  rewrite !append_cons, IH. reflexivity.
Qed.

Lemma startsWith_app (pat s : string) : JsString.startsWith pat (pat +:+ s) = true.
Proof.
  induction pat as [|a pat IH]; simpl; [reflexivity|].
  rewrite Ascii.eqb_refl. exact IH.
Qed.

Lemma slice_app (pat s : string) : JsString.slice (String.length pat) (pat +:+ s) = s.
Proof. induction pat as [|a pat IH]; simpl; [destruct s; reflexivity | exact IH]. Qed.

Lemma startsWith_long (pat a b : string) :
  (String.length pat <= String.length a)%nat ->
  JsString.startsWith pat (a +:+ b) = JsString.startsWith pat a.
Proof.
  revert a. induction pat as [|c pat IH]; intros a Hlen; [reflexivity|].
  destruct a as [|d a]; simpl in *; [lia|].
  destruct (Ascii.eqb c d); [apply IH; lia | reflexivity].
Qed.

Lemma replace_at_start (pat s : string) : JsString.replace pat "" (pat +:+ s) = s.
Proof.
  destruct pat as [|a pat].
  - destruct s; reflexivity.
  - change (JsString.replace (String a pat) "" (String a pat +:+ s))
      with (if JsString.startsWith (String a pat) (String a pat +:+ s)
            then "" +:+ JsString.slice (String.length (String a pat)) (String a pat +:+ s)
            else String a (JsString.replace (String a pat) "" (pat +:+ s))).
    rewrite startsWith_app, slice_app. reflexivity.
Qed.

Lemma replace_absent (pat rep s : string) :
  JsString.includes pat s = false -> JsString.replace pat rep s = s.
Proof.
  induction s as [|c s IH]; simpl.
  - destruct (JsString.startsWith pat ""); [discriminate | reflexivity].
  - destruct (JsString.startsWith pat (String c s)); [discriminate|].
    intros Hs. rewrite IH; [reflexivity | exact Hs].
Qed.

(** The occurrence of [init +:+ last] right after [pre] is the first one
    as soon as none starts inside [pre]. *)
Lemma replace_first_occurrence (init : string) (l : Ascii.ascii) (pre post : string) :
  JsString.includes (init +:+ String l "") (pre +:+ init) = false ->
  JsString.replace (init +:+ String l "") "" (pre +:+ (init +:+ String l "") +:+ post)
  = pre +:+ post.
Proof.
  remember (init +:+ String l "") as pat eqn:Hpat.
  induction pre as [|c pre IH]; intros Hno.
  - change ("" +:+ pat +:+ post) with (pat +:+ post). apply replace_at_start.
  - change (String c pre +:+ init) with (String c (pre +:+ init)) in Hno.
    change (String c pre +:+ pat +:+ post) with (String c (pre +:+ pat +:+ post)).
    change (String c pre +:+ post) with (String c (pre +:+ post)).
    cbn [JsString.includes] in Hno.
    destruct (JsString.startsWith pat (String c (pre +:+ init))) eqn:Hsw; [discriminate|].
    assert (Hfar : JsString.startsWith pat (String c (pre +:+ pat +:+ post)) = false).
    { replace (String c (pre +:+ pat +:+ post))
        with ((String c (pre +:+ init)) +:+ (String l "" +:+ post)).
      - rewrite startsWith_long; [exact Hsw|].
        subst pat. cbn [String.length]. rewrite !length_append. simpl. lia.
      - subst pat. rewrite append_cons, !append_assoc. reflexivity. }
    cbn [JsString.replace]. rewrite Hfar. f_equal. apply IH. exact Hno.
Qed.

(* ===================================================================== *)
(** ** The request context *)
(* ===================================================================== *)

Ltac run := unfold mbind, M_bind, mret, M_ret, throw, try_catch, get_world, modify.

Section ContextFacts.
Context `{Platform}.

(** One run of [context], branch by branch. *)
Lemma context_run (authorization : option string) (w : World) :
  context authorization w =
  let token := bearer authorization in
  let object (tokenPayload : JsValue) : CustomContext :=
    {[ "token" := JStr token; "tokenPayload" := tokenPayload; "appConfig" := JConfig Config ]} in
  if bool_decide (token ∈ revokedTokens w) then (Return (object JNull), w)
  else if JsString.truthy token then
    match jwt_verify token (AppConfig.signin_jwt_secret Config) (Date_now (ticks w)) with
    | Return p => (Return (object (JPayload p)), set_ticks S w)
    | Throw e =>
        (Return (object JNull), set_console (fun l => (l ++ [e])%list) (set_ticks S w))
    end
  else (Return (object JNull), w).
Proof.
  unfold context, tokenDs_isRevoke, console_error, clock. run. cbn beta zeta.
  destruct (bool_decide (bearer authorization ∈ revokedTokens w)); cbn [negb]; [reflexivity|].
  destruct (JsString.truthy (bearer authorization)); [|reflexivity].
  destruct (jwt_verify _ _ _); reflexivity.
Qed.

Lemma context_total (authorization : option string) (w : World) :
  exists tokenPayload w',
    context authorization w =
    (Return ({[ "token" := JStr (bearer authorization); "tokenPayload" := tokenPayload;
                "appConfig" := JConfig Config ]} : CustomContext), w').
Proof.
  rewrite context_run. cbn zeta.
  destruct (bool_decide _); [eauto|].
  destruct (JsString.truthy _); [|eauto].
  destruct (jwt_verify _ _ _); eauto.
Qed.

Lemma requireAuth_run (context : CustomContext) (w : World) :
  requireAuth context w =
  if truthy (prop context "isSignin") then (Return tt, w)
  else (Throw (AuthenticationError "sign-in to continue"), w).
Proof. unfold requireAuth. destruct (truthy _); reflexivity. Qed.

End ContextFacts.

(* ===================================================================== *)
(** ** Claims about the request context *)
(* ===================================================================== *)

(** Runs [context] on a closed header and a world without revocations:
    the token and the verdict of [jwt.verify] are computed, the context
    object is left as the code writes it. *)
Ltac run_context :=
  rewrite context_run; cbn zeta;
  match goal with
  | |- context [bearer ?h] =>
      let t := eval vm_compute in (bearer h) in change (bearer h) with t
  end;
  rewrite bool_decide_eq_false_2 by (intros Hin; inversion Hin);
  cbn [JsString.truthy];
  match goal with
  | |- context [@jwt_verify ?P ?t ?s ?n] =>
      let r := eval vm_compute in (@jwt_verify P t s n) in
      change (@jwt_verify P t s n) with r
  end;
  cbv iota.

(** C9, as stated, fails: a header value that does not start with
    ["Bearer "] but contains it further on is not taken whole; the
    occurrence is cut out of the middle. *)
Lemma context_token_inner_occurrence_removed :
  exists ctx w',
    @context Demo.platform (Some "Basic Bearer abc") (Demo.world [] []) = (Return ctx, w')
    /\ JsString.startsWith "Bearer " "Basic Bearer abc" = false
    /\ ctx !! "token" = Some (JStr "Basic abc")
    /\ ctx !! "token" <> Some (JStr (bearer_as_specified (Some "Basic Bearer abc"))).
Proof.
  eexists _, _. split; [run_context; reflexivity|].
  split; [reflexivity|].
  rewrite lookup_insert_eq. split; [reflexivity|].
  change (bearer_as_specified (Some "Basic Bearer abc")) with "Basic Bearer abc". discriminate.
Qed.

Section ContextClaims.
Context `{Platform}.

(** C9 (amended): the token that [context] stores is the header value
    (the empty string when the header is absent) with the first occurrence
    of ["Bearer "] removed, wherever that occurrence starts.  So a value
    that starts with ["Bearer "] loses that prefix, a value without any
    occurrence is the token as it is, and an occurrence further on is
    cut out. *)
Theorem context_token_first_occurrence (authorization : option string) (w : World) :
  (exists ctx w',
      context authorization w = (Return ctx, w')
      /\ ctx !! "token" = Some (JStr (bearer authorization)))
  /\ bearer None = ""
  /\ (forall t, bearer (Some ("Bearer " +:+ t)) = t)
  /\ (forall v, JsString.includes "Bearer " v = false -> bearer (Some v) = v)
  /\ (forall pre post,
        JsString.includes "Bearer " (pre +:+ "Bearer") = false ->
        bearer (Some (pre +:+ "Bearer " +:+ post)) = pre +:+ post).
Proof.
  split; [|split; [reflexivity|split; [|split]]].
  - destruct (context_total authorization w) as (p & w' & E).
    eexists _, _. split; [exact E|]. reflexivity.
  - intros t. apply (replace_at_start "Bearer " t).
  - intros v Hv. apply replace_absent, Hv.
  - intros pre post Hno. apply (replace_first_occurrence "Bearer" (Ascii.Ascii false false false false false true false false) pre post Hno).
Qed.


End ContextClaims.

(** C9 at work: a bare token, a prefixed one and an inner occurrence. *)
Lemma context_token_first_occurrence_witness :
  JsString.includes "Bearer " "owner.jwt" = false
  /\ JsString.includes "Bearer " ("Basic " +:+ "Bearer") = false
  /\ bearer (Some "owner.jwt") = "owner.jwt"
  /\ bearer (Some ("Basic " +:+ "Bearer " +:+ "abc")) = "Basic " +:+ "abc".
Proof.
  pose proof (@context_token_first_occurrence Demo.platform None (Demo.world [] []))
    as (_ & _ & _ & Hwhole & Hinner).
  split; [reflexivity|]. split; [reflexivity|].
  split; [apply Hwhole; reflexivity | apply Hinner; reflexivity].
Defined.


(** C1, at a request the code can receive: the header carries a token that
    is not revoked and that [jwt.verify] accepts.  The context then holds
    the decoded claims, but no [isSignin] property at all, so that
    [requireAuth], which reads just that property, turns the request
    away. *)
Theorem context_valid_token_without_isSignin :
  exists ctx w',
    @context Demo.platform (Some "Bearer owner.jwt") (Demo.world [] []) = (Return ctx, w')
    /\ ctx !! "token" = Some (JStr "owner.jwt")
    /\ ctx !! "tokenPayload" = Some (JPayload Demo.owner_claims)
    /\ ctx !! "isSignin" = None
    /\ dom ctx = {[ "token"; "tokenPayload"; "appConfig" ]}
    /\ requireAuth ctx w' = (Throw (AuthenticationError "sign-in to continue"), w').
Proof.
  eexists _, _. split; [run_context; reflexivity|].
  split; [apply lookup_insert_eq|].
  split; [rewrite lookup_insert_ne by discriminate; apply lookup_insert_eq|].
  split; [rewrite !lookup_insert_ne by discriminate; apply lookup_singleton_ne; discriminate|].
  split.
  - rewrite !dom_insert_L, dom_singleton_L. set_solver.
  - rewrite requireAuth_run. unfold prop.
    rewrite !lookup_insert_ne by discriminate. rewrite lookup_singleton_ne by discriminate.
    reflexivity.
Qed.

(* ===================================================================== *)
(** ** Running the sign-in mutations *)
(* ===================================================================== *)

Section SigninFacts.
Context `{Platform}.

Lemma appConfig_of_run (context : CustomContext) (c : AppConfig.t) (w : World) :
  context !! "appConfig" = Some (JConfig c) -> appConfig_of context w = (Return c, w).
Proof. intros E. unfold appConfig_of, prop. rewrite E. reflexivity. Qed.

(** One run of [token], branch by branch. *)
Lemma Mutation_token_run (key : string) (context : CustomContext) (c : AppConfig.t) (w : World) :
  context !! "appConfig" = Some (JConfig c) ->
  Mutation_token key context w =
  let w1 := set_ticks S w in
  let expire := minus_minutes (Date_now (ticks w)) (AppConfig.signin_key_available_time c) in
  match List.find (fun r => String.eqb (SignInKey.key r) key) (signInKeys w) with
  | None => (Throw (ApolloError "Sign in key didn't exist or expired."), w1)
  | Some r =>
      if (SignInKey.createdAt r <=? expire)%Z
      then (Throw (ApolloError "Sign in key didn't exist or expired."), w1)
      else
        (Return (jwt_sign
                   {| JwtPayload.email := SignInKey.email r;
                      JwtPayload.exp :=
                        Math_round_div_1000 (Date_now (S (ticks w)))
                        + AppConfig.signin_token_available_time c * 60 |}
                   (AppConfig.signin_jwt_secret c) (AppConfig.signin_jwt_algorithm c)),
         set_ticks S w1)
  end.
Proof.
  intros E. unfold Mutation_token, tokenDs_getRecordByKey, clock. run. cbn beta zeta.
  rewrite (appConfig_of_run context c _ E).
  destruct (List.find _ _) as [r|]; [|reflexivity].
  destruct (_ <=? _)%Z; reflexivity.
Qed.

(** One run of [signin], branch by branch. *)
Lemma Mutation_signin_run (email : string) (context : CustomContext) (c : AppConfig.t) (w : World) :
  context !! "appConfig" = Some (JConfig c) ->
  Mutation_signin email context w =
  if negb (emailValidator_validate email) then (Return "invalid email address", w)
  else if email_refused c email then (Return "the email address isn't allowed to sign in", w)
  else
    let w1 := set_ticks S w in
    let lastSeen := minus_minutes (Date_now (ticks w)) (AppConfig.signin_key_available_time c) in
    match foldr later None (List.filter (active email lastSeen) (signInKeys w)) with
    | Some _ =>
        (Return "an instruction has been sent to the email address, please follow that email to sign in.",
         w1)
    | None =>
        let key := uuidv4 (draws w) in
        (Promise_all (tokenDs_create key email) (smtpDs_send email key);; mret "sent")
          (set_draws S w1)
    end.
Proof.
  intros E. unfold Mutation_signin.
  destruct (negb (emailValidator_validate email)); [reflexivity|].
  unfold tokenDs_getLatestActiveRecord, clock, fresh_uuid. run.
  rewrite (appConfig_of_run context c _ E).
  destruct (email_refused c email); [reflexivity|]. cbn beta zeta.
  destruct (foldr later None _); reflexivity.
Qed.

(** What [d.setMinutes(d.getMinutes() - minutes)] comes to: the local
    time of [d] less [minutes] minutes, converted back to an instant. *)
Lemma minus_minutes_local (d : Date) (minutes : Z) :
  minus_minutes d minutes = UTC (LocalTime d - minutes * msPerMinute).
Proof.
  unfold minus_minutes, Date_setMinutes, Date_getMinutes. cbn zeta. f_equal.
  unfold MakeDate, MakeTime, Day, HourFromTime, MinFromTime, SecFromTime, msFromTime,
    msPerDay, msPerHour, msPerMinute, msPerSecond.
  generalize (LocalTime d). intros t.
  Z.to_euclidean_division_equations. lia.
Qed.

Lemma minus_minutes_steady (d : Date) (minutes : Z) :
  no_clock_change d minutes -> minus_minutes d minutes = (d - minutes * 60000)%Z.
Proof. intros Hsteady. rewrite minus_minutes_local. exact Hsteady. Qed.

(** The outcome of the two calls that [signin] joins: "sent" when the
    database and the mail server both accept, the rejection otherwise;
    each call has its effect whatever becomes of the other. *)
Lemma signin_join_run (email key : string) (w : World) :
  (Promise_all (tokenDs_create key email) (smtpDs_send email key);; mret "sent") w
  = let w1 :=
      match store_rejects w key email with
      | Some _ => w
      | None =>
          set_signInKeys
            (cons {| SignInKey.key := key; SignInKey.email := email;
                     SignInKey.createdAt := Date_now (ticks w) |})
            (set_ticks S w)
      end in
    let w2 :=
      match mail_rejects w1 email key with
      | Some _ => w1
      | None => set_outbox (fun l => (l ++ [(email, key)])%list) w1
      end in
    match store_rejects w key email, mail_rejects w1 email key with
    | None, None => (Return "sent", w2)
    | Some message, _ => (Throw (PrismaError message), w2)
    | None, Some message => (Throw (SmtpError message), w2)
    end.
Proof.
  unfold Promise_all, settled, tokenDs_create, smtpDs_send, clock. run. cbn beta zeta.
  destruct (store_rejects w key email); cbn beta iota zeta.
  - destruct (mail_rejects w email key); reflexivity.
  - destruct (mail_rejects _ email key); reflexivity.
Qed.

Lemma later_is_Some (r : SignInKey.t) (acc : option SignInKey.t) : is_Some (later r acc).
Proof.
  unfold later. destruct acc as [a|]; [|eauto].
  destruct (SignInKey.createdAt a <? SignInKey.createdAt r)%Z; eauto.
Qed.

(** The most recent active record exists exactly when some record of the
    table is active. *)
Lemma latest_active_is_Some (email : string) (lastSeen : Date) (keys : list SignInKey.t) :
  is_Some (foldr later None (List.filter (active email lastSeen) keys))
  <-> exists r, r ∈ keys /\ SignInKey.email r = email
                /\ (lastSeen <= SignInKey.createdAt r)%Z.
Proof.
  induction keys as [|k keys IH]; simpl.
  - split; [intros [? [=]] | intros (r & Hin & _); inversion Hin].
  - destruct (active email lastSeen k) eqn:Hact.
    + split.
      * intros _. exists k. unfold active in Hact.
        apply andb_true_iff in Hact as [He Hc].
        apply String.eqb_eq in He. apply Z.leb_le in Hc.
        split; [apply list_elem_of_here | tauto].
      * intros _. apply later_is_Some.
    + rewrite IH. split.
      * intros (r & Hin & Hr). exists r. split; [apply list_elem_of_further, Hin | exact Hr].
      * intros (r & Hin & He & Hc). apply elem_of_cons in Hin as [-> | Hin].
        -- exfalso. unfold active in Hact. apply andb_false_iff in Hact as [Hf | Hf].
           ++ apply String.eqb_neq in Hf. contradiction.
           ++ apply Z.leb_gt in Hf. lia.
        -- exists r. tauto.
Qed.

End SigninFacts.

(** A first request of an address, without an allow-list: one key is
    drawn, stored with the clock reading of the insert, and mailed. *)
Example signin_sends_key :
  @Mutation_signin Demo.platform "guest@example.com" Demo.openContext (Demo.world [] [])
  = (Return "sent",
     {| signInKeys := [ {| SignInKey.key := "key-0"; SignInKey.email := "guest@example.com";
                           SignInKey.createdAt := 1700000001500 |} ];
        revokedTokens := []; outbox := [("guest@example.com", "key-0")]; console := [];
        reasons := [Demo.groceries]; transactions := [Demo.receipt];
        ticks := 2; draws := 1 |}).
Proof. vm_compute. reflexivity. Qed.

(** When the mail server refuses, [signin] is rejected with its error;
    the key has been stored all the same. *)
Example signin_mail_refused :
  @Mutation_signin Outage.platform "guest@example.com" Demo.openContext (Demo.world [] [])
  = (Throw (SmtpError "connection refused"),
     {| signInKeys := [ {| SignInKey.key := "key-0"; SignInKey.email := "guest@example.com";
                           SignInKey.createdAt := 1700000001500 |} ];
        revokedTokens := []; outbox := []; console := [];
        reasons := [Demo.groceries]; transactions := [Demo.receipt];
        ticks := 2; draws := 1 |}).
Proof. vm_compute. reflexivity. Qed.

(** A key of eleven minutes ago, with a window of ten, does not stand in
    the way of a new one. *)
Example signin_ignores_expired_key :
  fst (@Mutation_signin Demo.platform "guest@example.com" Demo.openContext
         (Demo.world [Demo.guestKey 1699999340000] []))
  = Return "sent".
Proof. vm_compute. reflexivity. Qed.

(** A token the verifier rejects is logged and leaves the payload null. *)
Example context_logs_rejected_token :
  exists ctx w',
    @context Demo.platform (Some "Bearer forged.jwt") (Demo.world [] []) = (Return ctx, w')
    /\ ctx !! "tokenPayload" = Some JNull
    /\ console w' = [JsonWebTokenError "invalid token"].
Proof.
  eexists _, _. split; [run_context; reflexivity|].
  split; [|reflexivity].
  rewrite lookup_insert_ne by discriminate. apply lookup_insert_eq.
Qed.

Section SigninErrors.
Context `{Platform}.

(** Whatever the context holds, [token] only ever moves the clock. *)
Lemma Mutation_token_frame (key : string) (context : CustomContext) (w : World) :
  snd (Mutation_token key context w) = set_ticks S w
  \/ snd (Mutation_token key context w) = set_ticks S (set_ticks S w).
Proof.
  unfold Mutation_token, tokenDs_getRecordByKey, clock, appConfig_of. run. cbn beta zeta.
  destruct (prop context "appConfig"); try (left; reflexivity).
  destruct (List.find _ _) as [r|]; [|left; reflexivity].
  destruct (_ <=? _)%Z; [left | right]; reflexivity.
Qed.

Lemma Mutation_token_throws (key : string) (context : CustomContext) (w : World) (e : Error) :
  fst (Mutation_token key context w) = Throw e ->
  e = ApolloError "Sign in key didn't exist or expired."
  \/ e = TypeError "appConfig.get is not a function".
Proof.
  unfold Mutation_token, tokenDs_getRecordByKey, clock, appConfig_of. run. cbn beta zeta.
  destruct (prop context "appConfig"); cbn; try (intros [= <-]; right; reflexivity).
  destruct (List.find _ _) as [r|]; cbn; [|intros [= <-]; left; reflexivity].
  destruct (_ <=? _)%Z; cbn; [intros [= <-]; left; reflexivity | discriminate].
Qed.

Lemma appConfig_of_cases (context : CustomContext) :
  (exists c, context !! "appConfig" = Some (JConfig c))
  \/ (forall w, appConfig_of context w
                = (Throw (TypeError "appConfig.get is not a function"), w)).
Proof.
  unfold appConfig_of, prop.
  destruct (context !! "appConfig") as [[| | | | |c]|]; cbn; eauto.
Qed.

Lemma Mutation_signin_throws (email : string) (context : CustomContext) (w : World) (e : Error) :
  fst (Mutation_signin email context w) = Throw e ->
  e = TypeError "appConfig.get is not a function"
  \/ (exists message, e = PrismaError message)
  \/ (exists message, e = SmtpError message).
Proof.
  destruct (appConfig_of_cases context) as [[c Hc] | Hno].
  - rewrite (Mutation_signin_run email context c w Hc).
    destruct (negb (emailValidator_validate email)); [discriminate|].
    destruct (email_refused c email); [discriminate|]. cbn zeta.
    destruct (foldr later None _); [discriminate|].
    rewrite signin_join_run. cbn zeta.
    destruct (store_rejects _ _ _); [intros [= <-]; eauto|].
    destruct (mail_rejects _ _ _); [intros [= <-]; eauto | discriminate].
  - unfold Mutation_signin.
    destruct (negb (emailValidator_validate email)); [discriminate|].
    run. rewrite Hno. intros [= <-]. left. reflexivity.
Qed.

End SigninErrors.

(* ===================================================================== *)
(** ** Claims about the authorization guard *)
(* ===================================================================== *)

Section GuardClaims.
Context `{Platform} `{DataSources}.

Lemma guarded_refuses {A} (body : M A) (f : A -> Response) (context : CustomContext) (w : World) :
  truthy (prop context "isSignin") = false ->
  answer f (requireAuth context;; body) w
  = (Throw (AuthenticationError "sign-in to continue"), w).
Proof.
  intros Hout. unfold answer. run. rewrite requireAuth_run, Hout. reflexivity.
Qed.

(** C2: [requireAuth] throws [AuthenticationError] on a context whose
    [isSignin] is false and returns without any effect on one whose
    [isSignin] is true.  Every field of the resolver map that calls the
    reason, transaction or daily-spend data source runs it first: on a
    signed-out context the field fails with that error and the world is
    the one it started from, whatever the data sources would have done.
    [signin] and [token] never fail with it. *)
Theorem requireAuth_guards_ledger (context : CustomContext) (w : World) :
  (truthy (prop context "isSignin") = false ->
     requireAuth context w = (Throw (AuthenticationError "sign-in to continue"), w))
  /\ (truthy (prop context "isSignin") = true -> requireAuth context w = (Return tt, w))
  /\ (forall op,
        uses_ledger op = true ->
        truthy (prop context "isSignin") = false ->
        resolvers op context w = (Throw (AuthenticationError "sign-in to continue"), w))
  /\ (forall op,
        uses_ledger op = false ->
        (exists email, op = Signin email) \/ (exists key, op = Token key))
  /\ (forall op message,
        uses_ledger op = false ->
        fst (resolvers op context w) <> Throw (AuthenticationError message)).
Proof.
  split; [|split; [|split; [|split]]].
  - intros Hout. rewrite requireAuth_run, Hout. reflexivity.
  - intros Hin. rewrite requireAuth_run, Hin. reflexivity.
  - intros op Hop Hout.
    destruct op; try discriminate Hop; cbn [resolvers];
      unfold Query_getReasons, Query_getTransaction, Query_getTransactions,
        Query_getDailyBalance, Transaction_reason, Mutation_createTransaction,
        Mutation_updateTransaction, Mutation_deleteTransaction, Mutation_createReason,
        Mutation_updateReason;
      apply guarded_refuses, Hout.
  - intros op Hop. destruct op; try discriminate Hop; eauto.
  - intros op message Hop Hthrow.
    destruct op; try discriminate Hop; cbn [resolvers] in Hthrow; unfold answer in Hthrow;
      revert Hthrow; run.
    + destruct (Mutation_signin email context w) as [[s|e] w'] eqn:E; cbn; [discriminate|].
      intros [= ->].
      destruct (Mutation_signin_throws email context w _ (f_equal fst E))
        as [? | [[? ?] | [? ?]]]; discriminate.
    + destruct (Mutation_token key context w) as [[s|e] w'] eqn:E; cbn; [discriminate|].
      intros [= ->].
      destruct (Mutation_token_throws key context w _ (f_equal fst E)); discriminate.
Qed.

End GuardClaims.

(** C2 at work: a signed-out request for the reasons is refused before the
    reason table is read, a signed-in one is let through. *)
Lemma requireAuth_guards_ledger_witness :
  truthy (prop Demo.signedOut "isSignin") = false
  /\ truthy (prop Demo.signedIn "isSignin") = true
  /\ @resolvers Demo.platform Demo.dataSources GetReasons Demo.signedOut (Demo.world [] [])
     = (Throw (AuthenticationError "sign-in to continue"), Demo.world [] [])
  /\ requireAuth Demo.signedIn (Demo.world [] []) = (Return tt, Demo.world [] []).
Proof.
  pose proof (@requireAuth_guards_ledger Demo.platform Demo.dataSources Demo.signedOut
                (Demo.world [] [])) as (_ & _ & Hops & _).
  pose proof (@requireAuth_guards_ledger Demo.platform Demo.dataSources Demo.signedIn
                (Demo.world [] [])) as (_ & Hin & _).
  split; [reflexivity|]. split; [reflexivity|].
  split; [apply (Hops GetReasons); reflexivity | apply Hin; reflexivity].
Defined.

(* ===================================================================== *)
(** ** Claims about redeeming a key *)
(* ===================================================================== *)

Section TokenClaims.
Context `{Platform}.

Lemma getRecordByKey_run (key : string) (w : World) :
  tokenDs_getRecordByKey key w
  = (Return (List.find (fun r => String.eqb (SignInKey.key r) key) (signInKeys w)), w).
Proof. reflexivity. Qed.

Lemma getRecordByKey_unknown (key : string) (w : World) :
  tokenDs_getRecordByKey key w = (Return None, w)
  <-> forall r, r ∈ signInKeys w -> SignInKey.key r <> key.
Proof.
  rewrite getRecordByKey_run. split.
  - intros [= Hnone] r Hin Hkey.
    apply list_elem_of_In in Hin.
    pose proof (List.find_none _ _ Hnone r Hin) as Hneq.
    apply String.eqb_neq in Hneq. contradiction.
  - intros Hall. destruct (List.find _ _) as [r|] eqn:Hfind; [|reflexivity].
    apply List.find_some in Hfind as [Hin Hkey].
    apply String.eqb_eq in Hkey. apply list_elem_of_In in Hin.
    destruct (Hall r Hin Hkey).
Qed.




End TokenClaims.







(* ===================================================================== *)
(** ** Claims about asking for a key *)
(* ===================================================================== *)

(** C8, as stated, fails: with a non-empty allow-list that does not hold
    the argument, [signin] answers a malformed argument with the
    invalid-address outcome, not with the not-allowed one. *)
Lemma signin_malformed_before_allow_list :
  AppConfig.authorized_emails Demo.config = Some ["owner@example.com"]
  /\ ("nobody" ∉ ["owner@example.com"])
  /\ @Mutation_signin Demo.platform "nobody" Demo.signedOut (Demo.world [] [])
     = (Return "invalid email address", Demo.world [] [])
  /\ fst (@Mutation_signin Demo.platform "nobody" Demo.signedOut (Demo.world [] []))
     <> Return "the email address isn't allowed to sign in".
Proof.
  split; [reflexivity|]. split.
  - intros Hin. apply list_elem_of_singleton in Hin. discriminate.
  - split; [reflexivity | discriminate].
Qed.


Section SigninClaims.
Context `{Platform}.

(** C8 (amended): on a context carrying the configuration, for an
    argument that [emailValidator.validate] accepts, if the allow-list is
    configured, is not empty and does not hold the argument, [signin]
    returns, without throwing, "the email address isn't allowed to sign
    in" and leaves the world as it was: no table is written, no mail is
    sent. *)
Theorem signin_refuses_unlisted_email
    (email : string) (context : CustomContext) (c : AppConfig.t) (allowed : list string)
    (w : World) :
  context !! "appConfig" = Some (JConfig c) ->
  emailValidator_validate email = true ->
  AppConfig.authorized_emails c = Some allowed ->
  allowed <> [] ->
  email ∉ allowed ->
  Mutation_signin email context w = (Return "the email address isn't allowed to sign in", w).
Proof.
  intros Hcfg Hvalid Hlist Hne Hout.
  rewrite (Mutation_signin_run email context c w Hcfg), Hvalid. cbn [negb].
  unfold email_refused. rewrite Hlist.
  destruct allowed as [|a allowed]; [contradiction|]. cbn [length Nat.eqb negb andb].
  rewrite bool_decide_eq_false_2 by exact Hout. reflexivity.
Qed.


End SigninClaims.

(** C8 at work: a well-formed address that the allow-list does not hold. *)
Lemma signin_refuses_unlisted_email_witness :
  @Mutation_signin Demo.platform "guest@example.com" Demo.signedOut (Demo.world [] [])
  = (Return "the email address isn't allowed to sign in", Demo.world [] []).
Proof.
  apply (@signin_refuses_unlisted_email Demo.platform "guest@example.com" Demo.signedOut
           Demo.config ["owner@example.com"] (Demo.world [] []) eq_refl eq_refl eq_refl).
  - discriminate.
  - intros Hin. apply list_elem_of_singleton in Hin. discriminate.
Defined.


(* ===================================================================== *)
(** ** Claims about the transaction filters *)
(* ===================================================================== *)

Section FilterClaims.
Import TransactionDS.
Context `{PrismaClient}.

(** A bound that is a number other than zero and NaN does reach the
    query. *)
Example build_where_keeps_nonzero_bound :
  TransactionWhereInput.amount
    (build_where None None (Some (S754_finite false 5 2)) None (Some 3%Z))
  = Some {| DecimalFilter.gte := Some (S754_finite false 5 2); DecimalFilter.lte := None |}
  /\ TransactionWhereInput.reasonId
       (build_where None None (Some (S754_finite false 5 2)) None (Some 3%Z))
     = Some 3%Z.
Proof. split; reflexivity. Qed.

(** C10: in [getTransactions] and [countTransactions] a [fromAmount] or
    [toAmount] of zero (of either sign) and a [reason] of 0 leave no
    condition in the where clause: the clause has no [amount.gte], no
    [amount.lte], no [reasonId], and both functions send Prisma the very
    query they send when that argument is null. *)
Theorem zero_filter_is_no_filter
    (fromDate toDate : option Date) (fromAmount toAmount : option spec_float)
    (reason : option Z) (offset limit : Z) (sign : bool) :
  let zero := Some (S754_zero sign) in
  (TransactionWhereInput.amount (build_where fromDate toDate zero toAmount reason)
     ≫= DecimalFilter.gte) = None
  /\ (TransactionWhereInput.amount (build_where fromDate toDate fromAmount zero reason)
        ≫= DecimalFilter.lte) = None
  /\ TransactionWhereInput.reasonId (build_where fromDate toDate fromAmount toAmount (Some 0%Z))
     = None
  /\ getTransactions fromDate toDate zero toAmount reason offset limit
     = getTransactions fromDate toDate None toAmount reason offset limit
  /\ getTransactions fromDate toDate fromAmount zero reason offset limit
     = getTransactions fromDate toDate fromAmount None reason offset limit
  /\ getTransactions fromDate toDate fromAmount toAmount (Some 0%Z) offset limit
     = getTransactions fromDate toDate fromAmount toAmount None offset limit
  /\ countTransactions fromDate toDate zero toAmount reason
     = countTransactions fromDate toDate None toAmount reason
  /\ countTransactions fromDate toDate fromAmount zero reason
     = countTransactions fromDate toDate fromAmount None reason
  /\ countTransactions fromDate toDate fromAmount toAmount (Some 0%Z)
     = countTransactions fromDate toDate fromAmount toAmount None.
Proof.
  cbn zeta. unfold getTransactions, countTransactions, build_where.
  cbn [maybe_number_truthy number_truthy maybe_int_truthy Z.eqb negb].
  split; [|split; [|split]]; [| | |repeat split].
  all: destruct (maybe_date_truthy fromDate), (maybe_date_truthy toDate),
      (maybe_number_truthy fromAmount), (maybe_number_truthy toAmount),
      (maybe_int_truthy reason); reflexivity.
Qed.

End FilterClaims.

(* ===================================================================== *)
(** ** More on asking for a key and redeeming it *)
(* ===================================================================== *)

Section SigninFlow.
Context `{Platform}.

Lemma no_active_record (email : string) (lastSeen : Date) (keys : list SignInKey.t) :
  (forall r, r ∈ keys -> SignInKey.email r = email -> (SignInKey.createdAt r < lastSeen)%Z) ->
  foldr later None (List.filter (active email lastSeen) keys) = None.
Proof.
  intros Hold.
  destruct (foldr later None _) as [a|] eqn:E; [|reflexivity].
  assert (Hsome : is_Some (foldr later None (List.filter (active email lastSeen) keys))).
  { rewrite E. eauto. }
  apply latest_active_is_Some in Hsome as (r & Hin & He & Hc).
  pose proof (Hold r Hin He). lia.
Qed.

(** X1: An argument that [emailValidator.validate] rejects gets the
    invalid-address outcome from [signin] on any context, configured or
    not, and nothing at all happens: no clock reading, no table access,
    no mail. *)
Theorem signin_malformed_is_inert (email : string) (context : CustomContext) (w : World) :
  emailValidator_validate email = false ->
  Mutation_signin email context w = (Return "invalid email address", w).
Proof. intros Hbad. unfold Mutation_signin. rewrite Hbad. reflexivity. Qed.


(** The world after a [signin] that sends a key. *)
Lemma Mutation_signin_sent
    (email : string) (context : CustomContext) (c : AppConfig.t) (w : World) :
  context !! "appConfig" = Some (JConfig c) ->
  emailValidator_validate email = true ->
  email_refused c email = false ->
  (forall r, r ∈ signInKeys w -> SignInKey.email r = email ->
             (SignInKey.createdAt r
              < minus_minutes (Date_now (ticks w)) (AppConfig.signin_key_available_time c))%Z) ->
  (forall w' key, store_rejects w' key email = None) ->
  (forall w' key, mail_rejects w' email key = None) ->
  Mutation_signin email context w
  = (Return "sent",
     set_outbox (fun l => (l ++ [(email, uuidv4 (draws w))])%list)
       (set_signInKeys
          (cons {| SignInKey.key := uuidv4 (draws w); SignInKey.email := email;
                   SignInKey.createdAt := Date_now (S (ticks w)) |})
          (set_ticks S (set_draws S (set_ticks S w))))).
Proof.
  intros Hcfg Hvalid Hnot Hold Hstore Hmail.
  rewrite (Mutation_signin_run email context c w Hcfg), Hvalid, Hnot. cbn [negb]. cbn zeta.
  rewrite (no_active_record _ _ _ Hold), signin_join_run. cbn zeta.
  rewrite Hstore, Hmail. reflexivity.
Qed.




End SigninFlow.

(** A malformed argument, on a context that holds nothing at all. *)
Lemma signin_malformed_is_inert_witness :
  @Mutation_signin Demo.platform "nobody" ∅ (Demo.world [] [])
  = (Return "invalid email address", Demo.world [] []).
Proof.
  apply (@signin_malformed_is_inert Demo.platform "nobody" ∅ (Demo.world [] [])).
  reflexivity.
Defined.


Lemma demo_old_key_is_old (r : SignInKey.t) :
  r ∈ signInKeys (Demo.world [Demo.guestKey 1699999340000] []) ->
  SignInKey.email r = "guest@example.com" ->
  (SignInKey.createdAt r
   < @minus_minutes Demo.platform
       (@Date_now Demo.platform (ticks (Demo.world [Demo.guestKey 1699999340000] [])))
       (AppConfig.signin_key_available_time Demo.open_config))%Z.
Proof.
  intros Hin _. apply list_elem_of_singleton in Hin. subst r. reflexivity.
Defined.

Lemma demo_old_key_is_other (r : SignInKey.t) :
  r ∈ signInKeys (Demo.world [Demo.guestKey 1699999340000] []) ->
  SignInKey.key r <> @uuidv4 Demo.platform (draws (Demo.world [Demo.guestKey 1699999340000] [])).
Proof.
  intros Hin. apply list_elem_of_singleton in Hin. subst r. discriminate.
Defined.




(* ===================================================================== *)
(** ** More on the ledger resolvers *)
(* ===================================================================== *)

Section LedgerResolvers.
Context `{Platform} `{DataSources}.

Lemma requireAuth_passes (context : CustomContext) (w : World) :
  truthy (prop context "isSignin") = true -> requireAuth context w = (Return tt, w).
Proof. intros Hin. rewrite requireAuth_run, Hin. reflexivity. Qed.

Lemma guarded_runs {A} (body : M A) (context : CustomContext) (w : World) :
  truthy (prop context "isSignin") = true ->
  (requireAuth context;; body) w = body w.
Proof. intros Hin. run. rewrite (requireAuth_passes context w Hin). reflexivity. Qed.

(** X6: On a signed-in context each resolver that the two resolver maps have
    in common, but [createTransaction], does exactly what the earlier,
    unguarded map does: the guard is the only difference. *)
Theorem guard_is_the_only_difference (context : CustomContext) (w : World) :
  truthy (prop context "isSignin") = true ->
  Query_getReasons context w = Legacy.Query_getReasons context w
  /\ (forall args, Query_getTransaction args context w = Legacy.Query_getTransaction args context w)
  /\ (forall args, Query_getTransactions args context w
                   = Legacy.Query_getTransactions args context w)
  /\ (forall trans, Transaction_reason trans context w = Legacy.Transaction_reason trans context w)
  /\ (forall args, Mutation_updateTransaction args context w
                   = Legacy.Mutation_updateTransaction args context w)
  /\ (forall args, Mutation_deleteTransaction args context w
                   = Legacy.Mutation_deleteTransaction args context w)
  /\ (forall args, Mutation_createReason args context w
                   = Legacy.Mutation_createReason args context w)
  /\ (forall args, Mutation_updateReason args context w
                   = Legacy.Mutation_updateReason args context w).
Proof.
  intros Hin. repeat split; intros;
    unfold Query_getReasons, Query_getTransaction, Query_getTransactions, Transaction_reason,
      Mutation_updateTransaction, Mutation_deleteTransaction, Mutation_createReason,
      Mutation_updateReason;
    apply (guarded_runs _ context w Hin).
Qed.

(** X7: [Transaction.reason] on a signed-in context: when the reason data
    source knows no reason with the id of the transaction, the field
    fails with an [ApolloError] that names the id; when it knows one,
    the field returns it. *)
Theorem Transaction_reason_found_or_named
    (trans : TransactionModel.t) (context : CustomContext) (w w' : World)
    (found : option ReasonModel.t) :
  truthy (prop context "isSignin") = true ->
  reasonDs_getReasonById (TransactionModel.reasonId trans) w = (Return found, w') ->
  Transaction_reason trans context w
  = match found with
    | Some r => (Return r, w')
    | None =>
        (Throw (ApolloError ("Reason with ID = "
                               +:+ Z_to_string (TransactionModel.reasonId trans)
                               +:+ " doesn't exist.")), w')
    end.
Proof.
  intros Hin Hget. unfold Transaction_reason. rewrite (guarded_runs _ context w Hin).
  run. rewrite Hget. destruct found; reflexivity.
Qed.

(** X8: [createTransaction] on a signed-in context, when a reason with the
    given text exists: the transaction is created under the id of that
    reason, and no reason is created. *)
Theorem createTransaction_reuses_reason
    (args : MutationCreateTransactionArgs.t) (context : CustomContext) (w w' : World)
    (r : ReasonModel.t) :
  truthy (prop context "isSignin") = true ->
  reasonDs_getReasonByText (MutationCreateTransactionArgs.reasonText args) w
  = (Return (Some r), w') ->
  Mutation_createTransaction args context w
  = transactionDs_createTransaction args (ReasonModel.id r) w'.
Proof.
  intros Hin Hget. unfold Mutation_createTransaction.
  rewrite (guarded_runs _ context w Hin). run. rewrite Hget. reflexivity.
Qed.

(** X9: [createTransaction] on a signed-in context, when no reason with the
    given text exists: the reason is created together with one
    transaction that carries the amount, date and note given, and the
    field returns the first transaction of the created reason; if the
    created reason comes back without any, the field fails with
    "Couldn't create transaction".  The transaction data source is not
    called. *)
Theorem createTransaction_creates_reason_with_transaction
    (args : MutationCreateTransactionArgs.t) (context : CustomContext) (w w1 w2 : World)
    (reason : ReasonModel.t) :
  truthy (prop context "isSignin") = true ->
  reasonDs_getReasonByText (MutationCreateTransactionArgs.reasonText args) w
  = (Return None, w1) ->
  reasonDs_createReason
    {| CreateReasonArgs.text := MutationCreateTransactionArgs.reasonText args |}
    (Some [ {| NewTransaction.amount := MutationCreateTransactionArgs.amount args;
               NewTransaction.date := MutationCreateTransactionArgs.date args;
               NewTransaction.note := MutationCreateTransactionArgs.note args |} ]) w1
  = (Return reason, w2) ->
  Mutation_createTransaction args context w
  = match ReasonModel.transactions reason with
    | Some (t :: _) => (Return t, w2)
    | Some [] | None => (Throw (ApolloError "Couldn't create transaction"), w2)
    end.
Proof.
  intros Hin Hget Hnew. unfold Mutation_createTransaction.
  rewrite (guarded_runs _ context w Hin). run. rewrite Hget, Hnew.
  destruct (ReasonModel.transactions reason) as [[|t l]|]; reflexivity.
Qed.

(** X10: [updateTransaction] on a signed-in context, when the arguments carry
    no reason text or an empty one: the update goes to the transaction
    data source with an undefined reason id, and the reason data source
    is neither read nor written. *)
Theorem updateTransaction_without_reason_text
    (args : MutationUpdateTransactionArgs) (context : CustomContext) (w : World) :
  truthy (prop context "isSignin") = true ->
  update_reasonText args = None \/ update_reasonText args = Some "" ->
  Mutation_updateTransaction args context w = transactionDs_updateTransaction args None w.
Proof.
  intros Hin Htext. unfold Mutation_updateTransaction.
  rewrite (guarded_runs _ context w Hin). run.
  destruct Htext as [-> | ->]; reflexivity.
Qed.

Lemma resolvers_refuse (op : Operation) (context : CustomContext) (w : World) :
  uses_ledger op = true ->
  truthy (prop context "isSignin") = false ->
  resolvers op context w = (Throw (AuthenticationError "sign-in to continue"), w).
Proof.
  intros Hop Hout.
  destruct op; try discriminate Hop; cbn [resolvers];
    unfold Query_getReasons, Query_getTransaction, Query_getTransactions,
      Query_getDailyBalance, Transaction_reason, Mutation_createTransaction,
      Mutation_updateTransaction, Mutation_deleteTransaction, Mutation_createReason,
      Mutation_updateReason;
    apply guarded_refuses, Hout.
Qed.

(** X11: The context callback and the resolver map together: whatever the
    Authorization header of a request, the context built for it makes
    every field that uses the ledger fail with [AuthenticationError],
    before any data source is called. *)
Theorem ledger_refuses_every_built_context
    (authorization : option string) (op : Operation) (w : World) :
  uses_ledger op = true ->
  exists ctx w',
    context authorization w = (Return ctx, w')
    /\ resolvers op ctx w' = (Throw (AuthenticationError "sign-in to continue"), w').
Proof.
  intros Hop. destruct (context_total authorization w) as (p & w' & E).
  eexists _, w'. split; [exact E|]. apply resolvers_refuse; [exact Hop|]. reflexivity.
Qed.

End LedgerResolvers.

(** A signed-in request reads the reasons as the unguarded map would. *)
Lemma guard_is_the_only_difference_witness :
  @Query_getReasons Demo.dataSources Demo.signedIn (Demo.world [] [])
  = @Legacy.Query_getReasons Demo.dataSources Demo.signedIn (Demo.world [] []).
Proof.
  apply (@guard_is_the_only_difference Demo.dataSources Demo.signedIn (Demo.world [] [])).
  reflexivity.
Defined.

(** A transaction that points at reason 42, which the table lacks. *)
Lemma Transaction_reason_found_or_named_witness :
  @Transaction_reason Demo.dataSources DemoRows.orphan Demo.signedIn (Demo.world [] [])
  = (Throw (ApolloError "Reason with ID = 42 doesn't exist."), Demo.world [] []).
Proof.
  apply (@Transaction_reason_found_or_named Demo.dataSources DemoRows.orphan Demo.signedIn
           (Demo.world [] []) (Demo.world [] []) None); reflexivity.
Defined.

(** A transaction under the reason that exists. *)
Lemma createTransaction_reuses_reason_witness :
  @Mutation_createTransaction Demo.dataSources DemoRows.lunch Demo.signedIn (Demo.world [] [])
  = (Return Demo.receipt, Demo.world [] []).
Proof.
  apply (@createTransaction_reuses_reason Demo.dataSources DemoRows.lunch Demo.signedIn
           (Demo.world [] []) (Demo.world [] []) Demo.groceries); reflexivity.
Defined.

(** A transaction under a new reason, with a reason data source that
    hands the created reason back without its transactions. *)
Lemma createTransaction_creates_reason_with_transaction_witness :
  @Mutation_createTransaction Demo.dataSources DemoRows.taxi Demo.signedIn (Demo.world [] [])
  = (Throw (ApolloError "Couldn't create transaction"), Demo.world [] []).
Proof.
  apply (@createTransaction_creates_reason_with_transaction Demo.dataSources DemoRows.taxi
           Demo.signedIn (Demo.world [] []) (Demo.world [] []) (Demo.world [] [])
           Demo.groceries); reflexivity.
Defined.

(** An update that names no reason. *)
Lemma updateTransaction_without_reason_text_witness :
  @Mutation_updateTransaction Demo.dataSources (1%Z, None) Demo.signedIn (Demo.world [] [])
  = (Return Demo.receipt, Demo.world [] []).
Proof.
  apply (@updateTransaction_without_reason_text Demo.dataSources (1%Z, None) Demo.signedIn
           (Demo.world [] [])); [reflexivity | left; reflexivity].
Defined.

(** Even the token that the verifier accepts does not open the ledger. *)
Lemma ledger_refuses_every_built_context_witness :
  exists ctx w',
    @context Demo.platform (Some "Bearer owner.jwt") (Demo.world [] []) = (Return ctx, w')
    /\ @resolvers Demo.platform Demo.dataSources GetReasons ctx w'
       = (Throw (AuthenticationError "sign-in to continue"), w').
Proof.
  apply (@ledger_refuses_every_built_context Demo.platform Demo.dataSources
           (Some "Bearer owner.jwt") GetReasons (Demo.world [] [])).
  reflexivity.
Defined.

(* ===================================================================== *)
(** ** More on the request context *)
(* ===================================================================== *)

Lemma slice_after_start (pat s : string) :
  JsString.startsWith pat s = true ->
  (String.length (JsString.slice (String.length pat) s) + String.length pat
   = String.length s)%nat.
Proof.
  revert s. induction pat as [|a pat IH]; intros s Hs; [simpl; lia|].
  destruct s as [|b s]; [discriminate|]. simpl in Hs |- *.
  destruct (Ascii.eqb a b); [|discriminate]. rewrite <- (IH s Hs). lia.
Qed.

Lemma replace_shortens (pat s : string) :
  JsString.includes pat s = true ->
  (String.length (JsString.replace pat "" s) + String.length pat = String.length s)%nat.
Proof.
  induction s as [|c s IH]; cbn [JsString.includes JsString.replace].
  - destruct (JsString.startsWith pat "") eqn:Hs; [|discriminate].
    intros _. apply (slice_after_start pat "" Hs).
  - destruct (JsString.startsWith pat (String c s)) eqn:Hs.
    + intros _. apply (slice_after_start pat (String c s) Hs).
    + intros Hin. cbn [String.length]. rewrite <- (IH Hin). lia.
Qed.

Section ContextFrame.
Context `{Platform}.

(** X12: The token is the header value itself exactly when the value holds no
    ["Bearer "]; when it holds one, the token is seven characters
    shorter than the value. *)
Theorem bearer_changes_exactly_on_occurrence (value : string) :
  (bearer (Some value) = value <-> JsString.includes "Bearer " value = false)
  /\ (JsString.includes "Bearer " value = true ->
      (String.length (bearer (Some value)) + 7 = String.length value)%nat).
Proof.
  assert (Hshort : JsString.includes "Bearer " value = true ->
                   (String.length (bearer (Some value)) + 7 = String.length value)%nat).
  { intros Hin. apply (replace_shortens "Bearer " value Hin). }
  split; [|exact Hshort]. split.
  - intros Hsame. destruct (JsString.includes "Bearer " value) eqn:Hin; [|reflexivity].
    specialize (Hshort eq_refl). rewrite Hsame in Hshort. lia.
  - intros Hno. apply replace_absent, Hno.
Qed.

(** X13: A token that is not revoked and that [jwt.verify] accepts: the
    context holds the claims that [jwt.verify] returned, one clock
    reading was taken, and nothing was logged or written. *)
Theorem context_keeps_verified_claims
    (authorization : option string) (w : World) (claims : JwtPayload.t) :
  bearer authorization <> "" ->
  bearer authorization ∉ revokedTokens w ->
  jwt_verify (bearer authorization) (AppConfig.signin_jwt_secret Config) (Date_now (ticks w))
  = Return claims ->
  context authorization w
  = (Return ({[ "token" := JStr (bearer authorization);
                "tokenPayload" := JPayload claims;
                "appConfig" := JConfig Config ]} : CustomContext),
     set_ticks S w).
Proof.
  intros Hne Hrev Hok. rewrite context_run. cbn zeta.
  rewrite bool_decide_eq_false_2 by exact Hrev.
  destruct (bearer authorization) as [|a t] eqn:Htok; [contradiction|].
  cbn [JsString.truthy]. rewrite Hok. reflexivity.
Qed.



End ContextFrame.

(** A bare token and a prefixed one. *)
Lemma bearer_changes_exactly_on_occurrence_witness :
  bearer (Some "owner.jwt") = "owner.jwt"
  /\ (String.length (bearer (Some "Bearer owner.jwt")) + 7
      = String.length "Bearer owner.jwt")%nat.
Proof.
  split.
  - apply (proj1 (bearer_changes_exactly_on_occurrence "owner.jwt")). reflexivity.
  - apply (proj2 (bearer_changes_exactly_on_occurrence "Bearer owner.jwt")). reflexivity.
Defined.

(** The owner's token, accepted. *)
Lemma context_keeps_verified_claims_witness :
  @context Demo.platform (Some "Bearer owner.jwt") (Demo.world [] [])
  = (Return ({[ "token" := JStr "owner.jwt";
                "tokenPayload" := JPayload Demo.owner_claims;
                "appConfig" := JConfig Demo.config ]} : CustomContext),
     set_ticks S (Demo.world [] [])).
Proof.
  apply (@context_keeps_verified_claims Demo.platform (Some "Bearer owner.jwt")
           (Demo.world [] []) Demo.owner_claims).
  - discriminate.
  - intros Hin. inversion Hin.
  - reflexivity.
Defined.



(* ===================================================================== *)
(** ** Server start *)
(* ===================================================================== *)

Section ServerStart.
Import Bootstrap.
Context `{FileSystem}.

(** X16: TLS needs both paths: the server listens over TLS exactly when the
    configuration gives a non-empty key path and a non-empty certificate
    path.  Otherwise it is a plain HTTP listener, no file is read, and
    the announced address starts with ["http://"]; with both, the
    address starts with ["https://"] and the listener carries the content
    of the two files, or the start fails with the error of the first
    file that cannot be read. *)
Theorem tls_needs_both_paths (c : ServerConfig) (graphqlPath : string) :
  (path_truthy (sslEnable c) = true
   <-> exists key cert,
         ssl_certificates c
         = Some {| SslCertificates.key := Some key; SslCertificates.cert := Some cert |}
         /\ key <> "" /\ cert <> "")
  /\ (path_truthy (sslEnable c) = false ->
      createServer c = Return http_createServer
      /\ server_address c graphqlPath
         = "http://localhost:" +:+ Z_to_string (app_port c) +:+ graphqlPath)
  /\ (forall key cert,
        ssl_certificates c
        = Some {| SslCertificates.key := Some key; SslCertificates.cert := Some cert |} ->
        key <> "" -> cert <> "" ->
        server_address c graphqlPath
        = "https://localhost:" +:+ Z_to_string (app_port c) +:+ graphqlPath
        /\ createServer c
           = match fs_readFileSync key with
             | Throw e => Throw e
             | Return k =>
                 match fs_readFileSync cert with
                 | Throw e => Throw e
                 | Return ce => Return (https_createServer k ce)
                 end
             end).
Proof.
  split; [|split].
  - unfold sslEnable, keyPath, certPath. split.
    + destruct (ssl_certificates c) as [[[[|a k]|] [[|b ce]|]]|]; cbn; try discriminate.
      intros _. eexists _, _. split; [reflexivity|]. split; discriminate.
    + intros (key & cert & -> & Hk & Hc). cbn.
      destruct key as [|a key]; [contradiction|]. destruct cert as [|b cert]; [contradiction|].
      reflexivity.
  - intros Hoff. unfold createServer, server_address. rewrite Hoff. split; reflexivity.
  - intros key cert Hssl Hk Hc. unfold createServer, server_address, sslEnable, keyPath, certPath.
    rewrite Hssl. cbn.
    destruct key as [|a key]; [contradiction|]. destruct cert as [|b cert]; [contradiction|].
    cbn. split; reflexivity.
Qed.

End ServerStart.

(** A key path without a certificate path: plain HTTP, and the key file
    is not even read. *)
Lemma tls_needs_both_paths_witness :
  @Bootstrap.createServer DemoRows.disk DemoRows.keyOnly = Return Bootstrap.http_createServer
  /\ Bootstrap.server_address DemoRows.keyOnly "/graphql" = "http://localhost:4000/graphql"
  /\ Bootstrap.server_address DemoRows.keyAndCert "/graphql" = "https://localhost:4000/graphql"
  /\ @Bootstrap.createServer DemoRows.disk DemoRows.keyAndCert = Throw (TypeError "ENOENT").
Proof.
  pose proof (@tls_needs_both_paths DemoRows.disk DemoRows.keyOnly "/graphql")
    as (_ & Hoff & _).
  pose proof (@tls_needs_both_paths DemoRows.disk DemoRows.keyAndCert "/graphql")
    as (_ & _ & Hon).
  destruct (Hoff eq_refl) as [Hserver Haddr].
  destruct (Hon "/etc/ledger/key.pem" "/etc/ledger/cert.pem" eq_refl) as [Haddr' Hserver'];
    [discriminate | discriminate |].
  split; [exact Hserver|]. split; [exact Haddr|]. split; [exact Haddr' | exact Hserver'].
Defined.

(* ===================================================================== *)
(** ** More on [TransactionDS] *)
(* ===================================================================== *)

Section WhereByField.
Import TransactionDS.

(** X17: The where clause, condition by condition: each filter argument
    decides its own condition and no other.  The two date bounds end up
    in one date condition, the two amount bounds (those that are neither
    zero nor NaN) in one amount condition, and a condition with no bound
    is left out altogether. *)
Theorem build_where_by_field
    (fromDate toDate : option Date) (fromAmount toAmount : option spec_float)
    (reason : option Z) :
  let where_ := build_where fromDate toDate fromAmount toAmount reason in
  let kept (x : option spec_float) := if maybe_number_truthy x then x else None in
  TransactionWhereInput.date where_
  = match fromDate, toDate with
    | None, None => None
    | _, _ => Some {| DateTimeFilter.gte := fromDate; DateTimeFilter.lte := toDate |}
    end
  /\ TransactionWhereInput.amount where_
     = match kept fromAmount, kept toAmount with
       | None, None => None
       | gte, lte => Some {| DecimalFilter.gte := gte; DecimalFilter.lte := lte |}
       end
  /\ TransactionWhereInput.reasonId where_
     = match reason with
       | Some 0%Z | None => None
       | Some n => Some n
       end.
Proof.
  cbn zeta. unfold build_where.
  destruct fromDate, toDate;
    destruct fromAmount as [[| | |]|], toAmount as [[| | |]|];
    destruct reason as [[| |]|]; repeat split.
Qed.

End WhereByField.

Section RowWrites.
Import TransactionWrites.
Context `{Platform} `{RowClient}.

(** X18: The [data] of an update, column by column: each property of the
    patch decides its own column and no other.  [date] and [month] are
    written together, [month] being the local midnight of [date]; any
    amount given, zero and NaN included, is written; a reason is
    connected only for an id other than 0; a null description is
    written as null, an undefined one is left out; [updatedAt] is always
    written. *)
Theorem update_data_by_field (patch : Patch.t) (now : Date) :
  let data := update_data patch now in
  TransactionUpdateInput.date data
  = match Patch.date patch with Just d => Some d | Null | Undefined => None end
  /\ TransactionUpdateInput.month data
     = match Patch.date patch with
       | Just d => Some (local_midnight d)
       | Null | Undefined => None
       end
  /\ TransactionUpdateInput.amount data
     = match Patch.amount patch with Just x => Some x | Null | Undefined => None end
  /\ TransactionUpdateInput.reason_connect_id data
     = match Patch.reasonId patch with
       | Just 0%Z | Null | Undefined => None
       | Just n => Some n
       end
  /\ TransactionUpdateInput.description data
     = match Patch.description patch with
       | Undefined => None
       | Null => Some None
       | Just s => Some (Some s)
       end
  /\ TransactionUpdateInput.updatedAt data = Some now.
Proof.
  destruct patch as [date amount reasonId description].
  destruct date, amount, reasonId as [| |[| |]], description; repeat split.
Qed.

(** X19: An update that gives nothing (no date, no amount, no reason id or the
    id 0, an undefined description) still goes to Prisma, for the row
    with the given id, and writes the clock reading into [updatedAt] and
    nothing else. *)
Theorem updateTransaction_with_nothing_touches_updatedAt
    (id : Z) (patch : Patch.t) (w : World) :
  Patch.date patch = Null \/ Patch.date patch = Undefined ->
  Patch.amount patch = Null \/ Patch.amount patch = Undefined ->
  Patch.reasonId patch = Null \/ Patch.reasonId patch = Undefined
  \/ Patch.reasonId patch = Just 0%Z ->
  Patch.description patch = Undefined ->
  updateTransaction id patch w
  = transaction_update
      {| UpdateArgs.data :=
           {| TransactionUpdateInput.date := None;
              TransactionUpdateInput.month := None;
              TransactionUpdateInput.amount := None;
              TransactionUpdateInput.reason_connect_id := None;
              TransactionUpdateInput.description := None;
              TransactionUpdateInput.updatedAt := Some (Date_now (ticks w)) |};
         UpdateArgs.where_id := id;
         UpdateArgs.select := row_columns |}
      (set_ticks S w).
Proof.
  intros Hd Ha Hr Hs. unfold updateTransaction, update_data, clock. run.
  rewrite Hs. destruct Hd as [-> | ->], Ha as [-> | ->], Hr as [-> | [-> | ->]]; reflexivity.
Qed.

(** X20: A row is written with the same [month] for the same [date], whether
    it is created or updated: the local midnight of that date. *)
Theorem month_is_local_midnight_of_date
    (date : Date) (amount : spec_float) (reasonId : Z) (description : Maybe string)
    (id : Z) (patch : Patch.t) (w : World) :
  Patch.date patch = Just date ->
  (exists create_data,
      addTransaction date amount reasonId description w
      = transaction_create
          {| CreateArgs.data := create_data; CreateArgs.select := row_columns |}
          (set_ticks S w)
      /\ TransactionCreateInput.date create_data = date
      /\ TransactionCreateInput.month create_data = local_midnight date)
  /\ (exists update_args,
        updateTransaction id patch w = transaction_update update_args (set_ticks S w)
        /\ UpdateArgs.where_id update_args = id
        /\ TransactionUpdateInput.date (UpdateArgs.data update_args) = Some date
        /\ TransactionUpdateInput.month (UpdateArgs.data update_args)
           = Some (local_midnight date)).
Proof.
  intros Hdate. split.
  - eexists. split; [reflexivity|]. split; reflexivity.
  - eexists. split; [reflexivity|]. cbn [UpdateArgs.where_id UpdateArgs.data].
    unfold update_data. rewrite Hdate. cbn [date_given].
    destruct (amount_given _), (reasonId_given _), (description_given _); repeat split.
Qed.

End RowWrites.

(** An update of row 7 that gives nothing. *)
Lemma updateTransaction_with_nothing_touches_updatedAt_witness :
  @TransactionWrites.updateTransaction Demo.platform DemoRows.rows 7 DemoRows.nothing
    (Demo.world [] [])
  = (Return
       (inl {| TransactionWrites.UpdateArgs.data :=
                 {| TransactionWrites.TransactionUpdateInput.date := None;
                    TransactionWrites.TransactionUpdateInput.month := None;
                    TransactionWrites.TransactionUpdateInput.amount := None;
                    TransactionWrites.TransactionUpdateInput.reason_connect_id := None;
                    TransactionWrites.TransactionUpdateInput.description := None;
                    TransactionWrites.TransactionUpdateInput.updatedAt := Some 1700000000000 |};
               TransactionWrites.UpdateArgs.where_id := 7;
               TransactionWrites.UpdateArgs.select := TransactionWrites.row_columns |}),
     set_ticks S (Demo.world [] [])).
Proof.
  apply (@updateTransaction_with_nothing_touches_updatedAt
           Demo.platform DemoRows.rows 7 DemoRows.nothing (Demo.world [] [])).
  - right. reflexivity.
  - left. reflexivity.
  - right. right. reflexivity.
  - reflexivity.
Defined.

(** A row dated 14 November 2023, 22:13:20 UTC, in a process in UTC: the
    month column is that day at 00:00. *)
Lemma month_is_local_midnight_of_date_witness :
  exists update_args,
    @TransactionWrites.updateTransaction Demo.platform DemoRows.rows 7 DemoRows.redated
      (Demo.world [] [])
    = (Return (inl update_args), set_ticks S (Demo.world [] []))
    /\ TransactionWrites.TransactionUpdateInput.month
         (TransactionWrites.UpdateArgs.data update_args) = Some 1699920000000.
Proof.
  destruct (proj2 (@month_is_local_midnight_of_date Demo.platform
                     DemoRows.rows 1700000000000 (S754_zero false) 1 Null 7 DemoRows.redated
                     (Demo.world [] []) eq_refl))
    as (update_args & Hrun & _ & _ & Hmonth).
  exists update_args. split; [exact Hrun | exact Hmonth].
Defined.
